(** * solana-vault-mcp: the wallet service and its action handlers

    A shallow embedding of [app/services/solana_wallet.py] (the wallet
    registry and the [SolanaWallet] class) and of
    [app/handlers/wallet_actions.py] (the action router and its handlers),
    with the properties the specification states about them, and of the
    views of [app/routes/mcp.py] and [app/routes/web.py] and the wallet
    start-up of [app/__init__.py], with further properties of all of them.

    Python values are embedded as the JSON-shaped type [pyval]; floats are
    IEEE 754 binary64 numbers, as CPython's are, so float arithmetic is the
    kernel's [PrimFloat].  Exceptions are values of [exn]; a computation
    that may raise returns a [result]; a computation that also reads or
    writes the process state (the module global [_wallet_instance], the
    wallet objects, the RPC endpoint) is a function on [world]. *)

From Stdlib Require Import ZArith String Ascii List Bool Lia Floats.
From stdpp Require Import base list.
Import ListNotations.

#[local] Open Scope string_scope.
#[local] Open Scope Z_scope.
#[local] Set Warnings "-inexact-float,-register-all".

(** ** Python values *)

(** The values that reach this code: JSON documents (request parameters,
    RPC replies) and what the handlers build from them. *)
Inductive pyval : Type :=
| PNone
| PBool (b : bool)
| PInt (z : Z)
| PFloat (f : float)
| PStr (s : string)
| PList (l : list pyval)
| PDict (d : list (string * pyval)).

(** [type(v).__name__] *)
Definition py_type_name (v : pyval) : string :=
  match v with
  | PNone => "NoneType"
  | PBool _ => "bool"
  | PInt _ => "int"
  | PFloat _ => "float"
  | PStr _ => "str"
  | PList _ => "list"
  | PDict _ => "dict"
  end.

(** ** Exceptions *)

(** The exception classes that occur; all of them derive from [Exception].
    [OtherException] stands for any further subclass of [Exception] raised
    by the libraries (such as the RPC client's transport errors). *)
Inductive exn_class : Type :=
| ValueError
| TypeError
| KeyError
| OverflowError
| ZeroDivisionError
| AttributeError
| ReferenceError
| OtherException (name : string).

(** An exception: its class and [str(e)]. *)
Record exn : Type := Exn { exn_cls : exn_class; exn_str : string }.

Inductive result (A : Type) : Type :=
| Ok (a : A)
| Raise (e : exn).
Arguments Ok {A} a.
Arguments Raise {A} e.

Definition is_ValueError (e : exn) : bool :=
  match exn_cls e with ValueError => true | _ => false end.

Definition rbind {A B} (r : result A) (k : A -> result B) : result B :=
  match r with
  | Ok a => k a
  | Raise e => Raise e
  end.

(** ** Strings *)

(** [sub in s] for two strings: [sub] occurs in [s] at some position. *)
Fixpoint str_contains (sub s : string) : bool :=
  String.prefix sub s ||
  match s with
  | EmptyString => false
  | String _ s' => str_contains sub s'
  end.

(** Lookup in a dict with string keys (a JSON object). *)
Fixpoint dict_lookup (k : string) (d : list (string * pyval)) : option pyval :=
  match d with
  | [] => None
  | (k', v) :: d' => if String.eqb k' k then Some v else dict_lookup k d'
  end.

(** ** Numbers *)

(** The integer a finite float truncates to, and Python's [int(f)]:
    truncation toward zero, [ValueError] on NaN, [OverflowError] on an
    infinity.  A finite binary64 number is [(-1)^s * m * 2^e]. *)
Definition py_int_of_float (f : float) : result Z :=
  match Prim2SF f with
  | S754_zero _ => Ok 0
  | S754_infinity _ =>
      Raise (Exn OverflowError "cannot convert float infinity to integer")
  | S754_nan =>
      Raise (Exn ValueError "cannot convert float NaN to integer")
  | S754_finite s m e =>
      let a := if 0 <=? e then Z.shiftl (Zpos m) e
               else Z.shiftr (Zpos m) (- e) in
      Ok (if s then - a else a)
  end.

(** The least magnitude that rounds (to nearest, ties to even) beyond the
    largest finite binary64 number. *)
Definition float_overflow_threshold : Z := 2 ^ 1024 - 2 ^ 970.

(** Python's [float(z)] for an int: the nearest binary64 number, or
    [OverflowError] when that is out of range. *)
Definition py_float_of_int (z : Z) : result float :=
  if float_overflow_threshold <=? Z.abs z
  then Raise (Exn OverflowError "int too large to convert to float")
  else Ok (SF2Prim (binary_normalize 53 1024 z 0 false)).

(** An int as an unrounded floating-point datum (exponent 0). *)
Definition sf_of_int (z : Z) : spec_float :=
  match z with
  | Z0 => S754_zero false
  | Zpos p => S754_finite false p 0
  | Zneg p => S754_finite true p 0
  end.

(** Python's [a / b] on two ints: the correctly rounded quotient. *)
Definition py_int_truediv (a b : Z) : result float :=
  if b =? 0 then Raise (Exn ZeroDivisionError "division by zero")
  else
    match SFdiv 53 1024 (sf_of_int a) (sf_of_int b) with
    | S754_infinity _ =>
        Raise (Exn OverflowError "integer division result too large for a float")
    | q => Ok (SF2Prim q)
    end.

Definition Z_of_bool (b : bool) : Z := if b then 1 else 0.

(** [f < n] for a float and an int, compared exactly (no rounding of [n]). *)
Definition float_lt_int (f : float) (n : Z) : bool :=
  match Prim2SF f with
  | S754_zero _ => 0 <? n
  | S754_infinity s => s
  | S754_nan => false
  | S754_finite s m e =>
      let v := if s then Zneg m else Zpos m in
      if 0 <=? e then Z.shiftl v e <? n
      else v <? Z.shiftl n (- e)
  end.

(** ** Operators and built-ins on values *)

Definition type_error (msg : string) : exn := Exn TypeError msg.

(** [key in c] for a string [key]: membership among a dict's keys, among a
    list's elements, or as a substring of a string. *)
Definition py_contains (key : string) (c : pyval) : result bool :=
  match c with
  | PDict d => Ok (match dict_lookup key d with Some _ => true | None => false end)
  | PList l =>
      Ok (existsb (fun v => match v with
                            | PStr s => String.eqb s key
                            | _ => false
                            end) l)
  | PStr s => Ok (str_contains key s)
  | _ => Raise (type_error ("argument of type '" ++ py_type_name c
                            ++ "' is not iterable"))
  end.

(** [c[key]] for a string [key]. *)
Definition py_getitem (c : pyval) (key : string) : result pyval :=
  match c with
  | PDict d =>
      match dict_lookup key d with
      | Some v => Ok v
      | None => Raise (Exn KeyError ("'" ++ key ++ "'"))
      end
  | PList _ =>
      Raise (type_error "list indices must be integers or slices, not str")
  | PStr _ =>
      Raise (type_error "string indices must be integers, not 'str'")
  | _ => Raise (type_error ("'" ++ py_type_name c
                            ++ "' object is not subscriptable"))
  end.

(** [c.get(key, default)]: a dict method. *)
Definition py_dict_get (c : pyval) (key : string) (default : pyval)
  : result pyval :=
  match c with
  | PDict d =>
      Ok (match dict_lookup key d with Some v => v | None => default end)
  | _ => Raise (Exn AttributeError ("'" ++ py_type_name c
                                    ++ "' object has no attribute 'get'"))
  end.

(** [for x in c]: the elements a value iterates over. *)
Definition py_iter (c : pyval) : result (list pyval) :=
  match c with
  | PList l => Ok l
  | PDict d => Ok (map (fun kv => PStr (fst kv)) d)
  | PStr s => Ok (map (fun a => PStr (String a EmptyString)) (list_ascii_of_string s))
  | _ => Raise (type_error ("'" ++ py_type_name c
                            ++ "' object is not iterable"))
  end.

(** [v < n] for an int [n]. *)
Definition py_lt_int (v : pyval) (n : Z) : result bool :=
  match v with
  | PInt z => Ok (z <? n)
  | PBool b => Ok (Z_of_bool b <? n)
  | PFloat f => Ok (float_lt_int f n)
  | _ => Raise (type_error ("'<' not supported between instances of '"
                            ++ py_type_name v ++ "' and 'int'"))
  end.

(** [v / n] for an int [n]. *)
Definition py_truediv_int (v : pyval) (n : Z) : result float :=
  match v with
  | PInt z => py_int_truediv z n
  | PBool b => py_int_truediv (Z_of_bool b) n
  | PFloat f =>
      rbind (py_float_of_int n) (fun d =>
      if PrimFloat.eqb d 0 then Raise (Exn ZeroDivisionError "float division by zero")
      else Ok (f / d)%float)
  | _ => Raise (type_error ("unsupported operand type(s) for /: '"
                            ++ py_type_name v ++ "' and 'int'"))
  end.

(** [v / d] for a float [d]. *)
Definition py_truediv_float (v : pyval) (d : float) : result float :=
  let div (f : float) : result float :=
    if PrimFloat.eqb d 0 then Raise (Exn ZeroDivisionError "float division by zero")
    else Ok (f / d)%float in
  match v with
  | PInt z => rbind (py_float_of_int z) div
  | PBool b => rbind (py_float_of_int (Z_of_bool b)) div
  | PFloat f => div f
  | _ => Raise (type_error ("unsupported operand type(s) for /: '"
                            ++ py_type_name v ++ "' and 'float'"))
  end.

(** What the Python runtime supplies and this development leaves open: the
    parsers behind [float(s)] and [int(s)] on a string ([None] when they
    raise [ValueError]), the text [str(v)] of a value that is not a string,
    and the wall clock ([datetime.datetime.now().isoformat()] at the n-th
    reading). *)
Class PyRuntime : Type := {
  float_of_str : string -> option float;
  int_of_str : string -> option Z;
  py_repr : pyval -> string;
  now_isoformat : nat -> string
}.

Section Builtins.
Context `{PyRuntime}.

(** [str(v)], also what an f-string inserts for [{v}]. *)
Definition py_str (v : pyval) : string :=
  match v with
  | PStr s => s
  | _ => py_repr v
  end.

(** [float(v)] *)
Definition py_float (v : pyval) : result float :=
  match v with
  | PFloat f => Ok f
  | PInt z => py_float_of_int z
  | PBool b => py_float_of_int (Z_of_bool b)
  | PStr s =>
      match float_of_str s with
      | Some f => Ok f
      | None => Raise (Exn ValueError ("could not convert string to float: "
                                       ++ py_repr v))
      end
  | _ => Raise (type_error ("float() argument must be a string or a real number, not '"
                            ++ py_type_name v ++ "'"))
  end.

(** [int(v)] *)
Definition py_int (v : pyval) : result Z :=
  match v with
  | PInt z => Ok z
  | PBool b => Ok (Z_of_bool b)
  | PFloat f => py_int_of_float f
  | PStr s =>
      match int_of_str s with
      | Some z => Ok z
      | None => Raise (Exn ValueError ("invalid literal for int() with base 10: "
                                       ++ py_repr v))
      end
  | _ => Raise (type_error ("int() argument must be a string, a bytes-like object or a real number, not '"
                            ++ py_type_name v ++ "'"))
  end.

End Builtins.

(** ** Dicts keyed by arbitrary hashable values *)

(** [f == z] for a float and an int, compared exactly. *)
Definition float_eq_int (f : float) (z : Z) : bool :=
  match Prim2SF f with
  | S754_zero _ => z =? 0
  | S754_finite s m e =>
      let v := if s then Zneg m else Zpos m in
      if 0 <=? e then Z.shiftl v e =? z
      else v =? Z.shiftl z (- e)
  | _ => false
  end.

(** Lists and dicts are unhashable: they cannot be dict keys. *)
Definition py_hashable (v : pyval) : bool :=
  match v with
  | PList _ | PDict _ => false
  | _ => true
  end.

(** [a == b] on hashable values, as a dict compares keys: strings with
    strings, [None] with itself, numbers (bools count as 0 and 1) by value.
    A NaN equals nothing; a dict would still find a NaN key by object
    identity, which does not arise here since every RPC reply is a fresh
    object. *)
Definition py_key_eqb (a b : pyval) : bool :=
  match a, b with
  | PNone, PNone => true
  | PStr s, PStr t => String.eqb s t
  | PInt x, PInt y => x =? y
  | PInt x, PBool y => x =? Z_of_bool y
  | PBool x, PInt y => Z_of_bool x =? y
  | PBool x, PBool y => Bool.eqb x y
  | PFloat f, PInt y => float_eq_int f y
  | PFloat f, PBool y => float_eq_int f (Z_of_bool y)
  | PInt x, PFloat g => float_eq_int g x
  | PBool x, PFloat g => float_eq_int g (Z_of_bool x)
  | PFloat f, PFloat g => PrimFloat.eqb f g
  | _, _ => false
  end.

(** [d[k]] lookup, [None] when the key is absent. *)
Fixpoint pydict_get {V : Type} (k : pyval) (d : list (pyval * V)) : option V :=
  match d with
  | [] => None
  | (k', v) :: d' => if py_key_eqb k' k then Some v else pydict_get k d'
  end.

(** [d[k] = v]: replaces the value under an equal key, else appends. *)
Fixpoint pydict_set {V : Type} (k : pyval) (v : V) (d : list (pyval * V))
  : list (pyval * V) :=
  match d with
  | [] => [(k, v)]
  | (k', v') :: d' =>
      if py_key_eqb k' k then (k', v) :: d'
      else (k', v') :: pydict_set k v d'
  end.

Definition pydict_setitem {V : Type} (k : pyval) (v : V) (d : list (pyval * V))
  : result (list (pyval * V)) :=
  if py_hashable k then Ok (pydict_set k v d)
  else Raise (type_error ("unhashable type: '" ++ py_type_name k ++ "'")).

(** ** The Solana client library (solana-py), as this code uses it *)

(** A public key; [pk_base58] is [str(pk)]. *)
Record PublicKey : Type := { pk_base58 : string }.

Record Keypair : Type := { kp_secret_key : string; kp_public_key : PublicKey }.

Inductive Commitment : Type := Processed | Confirmed | Finalized.

Record TxOpts : Type := {
  skip_preflight : bool;
  preflight_commitment : Commitment
}.

Record TransferParams : Type := {
  from_pubkey : PublicKey;
  to_pubkey : PublicKey;
  lamports : Z
}.

(** The one instruction used: a transfer of the system program, kept as
    the parameters it was built from. *)
Inductive TransactionInstruction : Type :=
| SystemTransfer (params : TransferParams).

(** The largest amount an instruction can carry: the library encodes the
    amount as an unsigned 64-bit integer. *)
Definition u64_max : Z := 2 ^ 64 - 1.

(** [Transaction()] and [Transaction.add]. *)
Definition Transaction : Type := list TransactionInstruction.
Definition Transaction_new : Transaction := [].
Definition Transaction_add (t : Transaction) (i : TransactionInstruction)
  : Transaction := (t ++ [i])%list.

(** The methods of [solana.rpc.api.Client] that are called. *)
Inductive rpc_call : Type :=
| RpcGetVersion
| RpcGetBalance (pubkey : PublicKey)
| RpcGetSignaturesForAddress (pubkey : PublicKey) (limit : Z)
| RpcSendTransaction (txn : Transaction) (signer : Keypair) (opts : TxOpts)
| RpcGetTransaction (signature : pyval).

(** A call made on the client of an endpoint URL. *)
Definition rpc_event : Type := (string * rpc_call)%type.

Definition is_submission (ev : rpc_event) : bool :=
  match snd ev with
  | RpcSendTransaction _ _ _ => true
  | _ => false
  end.

(** The library and the ledger behind it are left open: which values
    [PublicKey(v)] accepts, which secret keys [Keypair.from_secret_key]
    decodes (from the base58 text of the key), what a client method
    returns or raises, given the calls made so far, and the exception for
    an amount no instruction can carry. *)
Class SolanaLib : Type := {
  PublicKey_new : pyval -> result PublicKey;
  Keypair_from_secret_key : string -> result Keypair;
  rpc_reply : list rpc_event -> rpc_event -> result pyval;
  transfer_out_of_range : Z -> exn
}.

(** [solana.system_program.transfer]: it builds the instruction, encoding
    the amount on the way, and raises for an amount that is negative or
    beyond 64 bits ([transfer_out_of_range] is that exception, whose class
    and text are the library's). *)
Definition transfer `{SolanaLib} (params : TransferParams)
  : result TransactionInstruction :=
  if (0 <=? lamports params) && (lamports params <=? u64_max)
  then Ok (SystemTransfer params)
  else Raise (transfer_out_of_range (lamports params)).

(** ** app/services/solana_wallet.py *)

Module Wallet.

(** An entry of the transaction cache:
    [{"type": ..., "amount": ..., "recipient": ..., "timestamp": ...}]. *)
Record tx_entry : Type := {
  tx_type : string;
  tx_amount : float;
  tx_recipient : pyval;
  tx_timestamp : string
}.

(** The attributes of a [SolanaWallet] object.  [client] is the object
    [Client(rpc_url)], identified by the endpoint it was built for. *)
Record SolanaWallet : Type := {
  keypair : Keypair;
  public_key : string;
  client : string;
  network_version : pyval;
  network : string;
  tx_history : list (pyval * tx_entry)
}.

(** The process state: the wallet objects by address, the module global
    [_wallet_instance] ([None] or the address of an object), the calls made
    to RPC endpoints so far (oldest first) and the number of clock
    readings. *)
Record world : Type := World {
  heap : list SolanaWallet;
  _wallet_instance : option nat;
  rpc_log : list rpc_event;
  clock : nat
}.

Definition empty_world : world :=
  {| heap := []; _wallet_instance := None; rpc_log := []; clock := 0 |}.

(** Computations: they read and write the world and return or raise.  What
    was written before an exception stays written. *)
Definition M (A : Type) : Type := world -> result A * world.

Definition ret {A} (a : A) : M A := fun w => (Ok a, w).

Definition bind {A B} (c : M A) (k : A -> M B) : M B :=
  fun w => match c w with
           | (Ok a, w') => k a w'
           | (Raise e, w') => (Raise e, w')
           end.

Definition raise {A} (e : exn) : M A := fun w => (Raise e, w).

Definition lift {A} (r : result A) : M A := fun w => (r, w).

(** [try: c  except Exception as e: h e] *)
Definition try_except {A} (c : M A) (h : exn -> M A) : M A :=
  fun w => match c w with
           | (Ok a, w') => (Ok a, w')
           | (Raise e, w') => h e w'
           end.

(** [try: c  except ValueError: h]: other exceptions pass through. *)
Definition try_except_ValueError {A} (c : M A) (h : exn -> M A) : M A :=
  try_except c (fun e => if is_ValueError e then h e else raise e).

Notation "x <- c ;; k" := (bind c (fun x => k))
  (at level 100, c at next level, right associativity).

Definition read_instance : M (option nat) :=
  fun w => (Ok (_wallet_instance w), w).

Definition write_instance (r : option nat) : M unit :=
  fun w => (Ok tt, {| heap := heap w; _wallet_instance := r;
                      rpc_log := rpc_log w; clock := clock w |}).

(** A new object: it gets the next free address. *)
Definition alloc (o : SolanaWallet) : M nat :=
  fun w => (Ok (length (heap w)),
            {| heap := (heap w ++ [o])%list; _wallet_instance := _wallet_instance w;
               rpc_log := rpc_log w; clock := clock w |}).

(** The object at an address.  Addresses come from [alloc] only, so the
    miss does not happen in a world this code has built. *)
Definition load (self : nat) : M SolanaWallet :=
  fun w => match heap w !! self with
           | Some o => (Ok o, w)
           | None => (Raise (Exn ReferenceError "no object at this address"), w)
           end.

Definition store (self : nat) (o : SolanaWallet) : M unit :=
  fun w => (Ok tt, {| heap := <[self := o]> (heap w);
                      _wallet_instance := _wallet_instance w;
                      rpc_log := rpc_log w; clock := clock w |}).

(** [datetime.datetime.now().isoformat()] *)
Definition datetime_now_isoformat `{PyRuntime} : M string :=
  fun w => (Ok (now_isoformat (clock w)),
            {| heap := heap w; _wallet_instance := _wallet_instance w;
               rpc_log := rpc_log w; clock := S (clock w) |}).

(** A method call on the client of [url]: it is recorded, and the library
    answers. *)
Definition call_rpc `{SolanaLib} (url : string) (c : rpc_call) : M pyval :=
  fun w => let ev : rpc_event := (url, c) in
           (rpc_reply (rpc_log w) ev,
            {| heap := heap w; _wallet_instance := _wallet_instance w;
               rpc_log := (rpc_log w ++ [ev])%list; clock := clock w |}).

Section Service.
Context `{PyRuntime} `{SolanaLib}.

(** [SolanaWallet._get_network_name] *)
Definition _get_network_name (rpc_url : string) : string :=
  if str_contains "mainnet" rpc_url then "mainnet"
  else if str_contains "testnet" rpc_url then "testnet"
  else if str_contains "devnet" rpc_url then "devnet"
  else "unknown".

(** [SolanaWallet.__init__]: the attributes of the object under
    construction.  The last two lookups are those of the f-string logged on
    success. *)
Definition SolanaWallet_init (private_key rpc_url : string) : M SolanaWallet :=
  try_except
    (keypair <- lift (Keypair_from_secret_key private_key) ;;
     let public_key := pk_base58 (kp_public_key keypair) in
     let client := rpc_url in
     version_response <- call_rpc client RpcGetVersion ;;
     has_result <- lift (py_contains "result" version_response) ;;
     if negb has_result
     then raise (Exn ValueError ("Failed to connect to Solana RPC: "
                                 ++ py_str version_response))
     else
       let network_version := version_response in
       let network := _get_network_name rpc_url in
       let tx_history := [] in
       r <- lift (py_getitem network_version "result") ;;
       _ <- lift (py_getitem r "solana-core") ;;
       ret {| keypair := keypair; public_key := public_key; client := client;
              network_version := network_version; network := network;
              tx_history := tx_history |})
    (fun e => raise (Exn ValueError ("Failed to initialize Solana wallet: "
                                     ++ exn_str e))).

(** [SolanaWallet(private_key, rpc_url)]: the object exists once
    [__init__] has returned; one whose [__init__] raised is unreachable. *)
Definition SolanaWallet_new (private_key rpc_url : string) : M nat :=
  o <- SolanaWallet_init private_key rpc_url ;;
  alloc o.

(** [initialize_wallet] *)
Definition initialize_wallet (private_key rpc_url : string) : M (option nat) :=
  inst <- read_instance ;;
  _ <- match inst with
       | None =>
           try_except
             (o <- SolanaWallet_new private_key rpc_url ;;
              write_instance (Some o))
             (fun e => raise e)
       | Some _ => ret tt
       end ;;
  read_instance.

(** [get_wallet] *)
Definition get_wallet : M (option nat) :=
  inst <- read_instance ;;
  match inst with
  | None => raise (Exn ValueError "Wallet not initialized. Call initialize_wallet first.")
  | Some _ => read_instance
  end.

(** [SolanaWallet.get_balance] *)
Definition get_balance (self : nat) : M float :=
  try_except
    (o <- load self ;;
     resp <- call_rpc (client o) (RpcGetBalance (kp_public_key (keypair o))) ;;
     has_result <- lift (py_contains "result" resp) ;;
     if negb has_result
     then raise (Exn ValueError ("Failed to get balance: " ++ py_str resp))
     else
       r <- lift (py_getitem resp "result") ;;
       balance_lamports <- lift (py_getitem r "value") ;;
       balance_sol <- lift (py_truediv_int balance_lamports 1000000000) ;;
       ret balance_sol)
    (fun e => raise (Exn ValueError ("Failed to get SOL balance: " ++ exn_str e))).

(** [SolanaWallet.transfer_sol] *)
Definition transfer_sol (self : nat) (recipient : pyval) (amount : float)
  : M pyval :=
  try_except
    (o <- load self ;;
     recipient_pubkey <- lift (PublicKey_new recipient) ;;
     lamports <- lift (py_int_of_float (amount * 1000000000)%float) ;;
     balance_resp <- call_rpc (client o) (RpcGetBalance (kp_public_key (keypair o))) ;;
     has_result <- lift (py_contains "result" balance_resp) ;;
     if negb has_result
     then raise (Exn ValueError ("Failed to get balance: " ++ py_str balance_resp))
     else
       r <- lift (py_getitem balance_resp "result") ;;
       current_balance <- lift (py_getitem r "value") ;;
       short <- lift (py_lt_int current_balance lamports) ;;
       if short : bool
       then
         available <- lift (py_truediv_float current_balance 1e9) ;;
         raise (Exn ValueError ("Insufficient balance. Available: "
                                ++ py_str (PFloat available) ++ " SOL, Requested: "
                                ++ py_str (PFloat amount) ++ " SOL"))
       else
         transfer_instruction <-
           lift (transfer {| from_pubkey := kp_public_key (keypair o);
                             to_pubkey := recipient_pubkey;
                             lamports := lamports |}) ;;
         let transaction := Transaction_add Transaction_new transfer_instruction in
         let opts := {| skip_preflight := false;
                        preflight_commitment := Confirmed |} in
         response <- call_rpc (client o)
                       (RpcSendTransaction transaction (keypair o) opts) ;;
         has_error <- lift (py_contains "error" response) ;;
         if has_error : bool
         then
           err <- lift (py_getitem response "error") ;;
           raise (Exn ValueError ("Transfer failed: " ++ py_str err))
         else
           has_result <- lift (py_contains "result" response) ;;
           if negb has_result
           then raise (Exn ValueError ("Unexpected response format: "
                                       ++ py_str response))
           else
             signature <- lift (py_getitem response "result") ;;
             timestamp <- datetime_now_isoformat ;;
             let entry := {| tx_type := "transfer"; tx_amount := amount;
                             tx_recipient := recipient;
                             tx_timestamp := timestamp |} in
             o' <- load self ;;
             history <- lift (pydict_setitem signature entry (tx_history o')) ;;
             _ <- store self {| keypair := keypair o'; public_key := public_key o';
                                client := client o';
                                network_version := network_version o';
                                network := network o';
                                tx_history := history |} ;;
             ret signature)
    (fun e => raise (Exn ValueError ("Failed to transfer SOL: " ++ exn_str e))).

(** [SolanaWallet.get_token_balance]: a placeholder in the source. *)
Definition get_token_balance (self : nat) (token_mint : pyval) : M pyval :=
  try_except
    (ret (PDict [("mint", token_mint); ("amount", PStr "0");
                 ("decimals", PInt 0); ("ui_amount", PInt 0)]))
    (fun e => raise (Exn ValueError ("Failed to get token balance: " ++ exn_str e))).

(** [SolanaWallet.get_transaction] *)
Definition get_transaction (self : nat) (signature : pyval) : M pyval :=
  try_except
    (o <- load self ;;
     response <- call_rpc (client o) (RpcGetTransaction signature) ;;
     has_error <- lift (py_contains "error" response) ;;
     if has_error : bool
     then
       err <- lift (py_getitem response "error") ;;
       raise (Exn ValueError ("Failed to get transaction: " ++ py_str err))
     else
       has_result <- lift (py_contains "result" response) ;;
       if negb has_result
       then raise (Exn ValueError ("Unexpected response format: " ++ py_str response))
       else lift (py_getitem response "result"))
    (fun e => raise (Exn ValueError ("Failed to get transaction: " ++ exn_str e))).

(** The body of the loop of [get_recent_transactions]: one remote summary
    in the normalized shape. *)
Definition format_transaction (tx : pyval) : result pyval :=
  rbind (py_getitem tx "signature") (fun signature =>
  rbind (py_getitem tx "slot") (fun slot =>
  rbind (py_getitem tx "err") (fun err =>
  rbind (py_dict_get tx "memo" PNone) (fun memo =>
  let transaction_data :=
    [("signature", signature); ("slot", slot); ("err", err); ("memo", memo)] in
  rbind (py_contains "blockTime" tx) (fun has_block_time =>
  if has_block_time : bool
  then rbind (py_getitem tx "blockTime") (fun block_time =>
       Ok (PDict (transaction_data ++ [("block_time", block_time)])%list))
  else Ok (PDict transaction_data)))))).

Fixpoint format_transactions (txs : list pyval) : result (list pyval) :=
  match txs with
  | [] => Ok []
  | tx :: rest =>
      rbind (format_transaction tx) (fun transaction_data =>
      rbind (format_transactions rest) (fun transactions =>
      Ok (transaction_data :: transactions)))
  end.

(** [SolanaWallet.get_recent_transactions] *)
Definition get_recent_transactions (self : nat) (limit : Z) : M (list pyval) :=
  try_except
    (o <- load self ;;
     response <- call_rpc (client o)
                   (RpcGetSignaturesForAddress (kp_public_key (keypair o)) limit) ;;
     has_error <- lift (py_contains "error" response) ;;
     if has_error : bool
     then
       err <- lift (py_getitem response "error") ;;
       raise (Exn ValueError ("Failed to get recent transactions: " ++ py_str err))
     else
       has_result <- lift (py_contains "result" response) ;;
       if negb has_result
       then raise (Exn ValueError ("Unexpected response format: " ++ py_str response))
       else
         r <- lift (py_getitem response "result") ;;
         txs <- lift (py_iter r) ;;
         lift (format_transactions txs))
    (fun e => raise (Exn ValueError ("Failed to get recent transactions: "
                                     ++ exn_str e))).

End Service.
End Wallet.

(** ** app/handlers/wallet_actions.py *)

Module Handlers.
Import Wallet.

(** [model_context_protocol.MCPRequest]; [params] may be [None]. *)
Record MCPRequest : Type := {
  id : string;
  action : string;
  params : option (list (string * pyval))
}.

Section Actions.
Context `{PyRuntime} `{SolanaLib}.

(** An attribute access or method call on what [get_wallet()] returned:
    on [None] it raises [AttributeError]. *)
Definition the_object (wallet : option nat) (attr : string) : M nat :=
  match wallet with
  | Some self => ret self
  | None => raise (Exn AttributeError ("'NoneType' object has no attribute '"
                                       ++ attr ++ "'"))
  end.

(** [get_wallet_info] *)
Definition get_wallet_info : M pyval :=
  wallet <- get_wallet ;;
  self <- the_object wallet "public_key" ;;
  o <- load self ;;
  r <- lift (py_getitem (network_version o) "result") ;;
  version <- lift (py_getitem r "solana-core") ;;
  balance <- get_balance self ;;
  ret (PDict [("address", PStr (public_key o)); ("network", PStr (network o));
              ("network_version", version); ("balance", PFloat balance)]).

(** [get_sol_balance] *)
Definition get_sol_balance : M pyval :=
  wallet <- get_wallet ;;
  self <- the_object wallet "get_balance" ;;
  balance <- get_balance self ;;
  o <- load self ;;
  ret (PDict [("balance", PFloat balance); ("currency", PStr "SOL");
              ("address", PStr (public_key o))]).

(** [transfer_sol], the handler of [wallet.transfer] *)
Definition transfer_sol (params : list (string * pyval)) : M pyval :=
  match dict_lookup "recipient" params with
  | None => raise (Exn ValueError "Missing required parameter: recipient")
  | Some recipient =>
      match dict_lookup "amount" params with
      | None => raise (Exn ValueError "Missing required parameter: amount")
      | Some raw_amount =>
          amount <- try_except_ValueError
                      (lift (py_float raw_amount))
                      (fun _ => raise (Exn ValueError
                                         ("Invalid amount value: " ++ py_str raw_amount
                                          ++ ". Must be a valid number."))) ;;
          if (amount <=? 0)%float
          then raise (Exn ValueError "Amount must be greater than 0")
          else
            wallet <- get_wallet ;;
            self <- the_object wallet "transfer_sol" ;;
            signature <- Wallet.transfer_sol self recipient amount ;;
            o <- load self ;;
            ret (PDict [("success", PBool true); ("signature", signature);
                        ("amount", PFloat amount); ("recipient", recipient);
                        ("explorer_url",
                          PStr ("https://explorer.solana.com/tx/" ++ py_str signature
                                ++ "?cluster=" ++ network o))])
      end
  end.

(** The first lines of [get_transactions]: the limit handed to the wallet. *)
Definition requested_limit (params : list (string * pyval)) : result Z :=
  let raw := match dict_lookup "limit" params with
             | Some v => v
             | None => PInt 10
             end in
  let converted := match py_int raw with
                   | Ok limit => Ok limit
                   | Raise e => if is_ValueError e then Ok 10 else Raise e
                   end in
  rbind converted (fun limit =>
  Ok (if (limit <=? 0) || (limit >? 100) then 10 else limit)).

(** [get_transactions], the handler of [wallet.transactions] *)
Definition get_transactions (params : list (string * pyval)) : M pyval :=
  limit <- lift (requested_limit params) ;;
  wallet <- get_wallet ;;
  self <- the_object wallet "get_recent_transactions" ;;
  transactions <- get_recent_transactions self limit ;;
  o <- load self ;;
  ret (PDict [("transactions", PList transactions);
              ("count", PInt (Z.of_nat (length transactions)));
              ("address", PStr (public_key o))]).

(** [get_token_balance], the handler of [wallet.token_balance] *)
Definition get_token_balance (params : list (string * pyval)) : M pyval :=
  match dict_lookup "token_mint" params with
  | None => raise (Exn ValueError "Missing required parameter: token_mint")
  | Some token_mint =>
      wallet <- get_wallet ;;
      self <- the_object wallet "get_token_balance" ;;
      token_data <- Wallet.get_token_balance self token_mint ;;
      balance <- lift (py_dict_get token_data "ui_amount" (PInt 0)) ;;
      raw_balance <- lift (py_dict_get token_data "amount" (PStr "0")) ;;
      decimals <- lift (py_dict_get token_data "decimals" (PInt 0)) ;;
      o <- load self ;;
      ret (PDict [("token_mint", token_mint); ("balance", balance);
                  ("raw_balance", raw_balance); ("decimals", decimals);
                  ("address", PStr (public_key o))])
  end.

(** The [try] block of [handle_wallet_action]. *)
Definition dispatch (action : string) (params : list (string * pyval)) : M pyval :=
  wallet <- get_wallet ;;
  if String.eqb action "wallet.info" then get_wallet_info
  else if String.eqb action "wallet.balance" then get_sol_balance
  else if String.eqb action "wallet.transfer" then transfer_sol params
  else if String.eqb action "wallet.transactions" then get_transactions params
  else if String.eqb action "wallet.token_balance" then get_token_balance params
  else raise (Exn ValueError ("Unknown wallet action: " ++ action)).

(** The result the router returns for an exception [e]. *)
Definition failure_result (e : exn) (action : string) : pyval :=
  PDict [("error", PStr (exn_str e)); ("action", PStr action);
         ("success", PBool false)].

(** [request.params or {}] *)
Definition params_or_empty (request : MCPRequest) : list (string * pyval) :=
  match params request with
  | Some d => d
  | None => []
  end.

(** [handle_wallet_action] *)
Definition handle_wallet_action (request : MCPRequest) : M pyval :=
  let action := action request in
  let params := params_or_empty request in
  try_except
    (dispatch action params)
    (fun e => ret (failure_result e action)).

End Actions.
End Handlers.
(** ** app/routes/mcp.py and app/routes/web.py *)

(** [bool(v)]: the values that count as false are [None], [False], zero,
    and the empty string, list and dict. *)
Definition py_truthy (v : pyval) : bool :=
  match v with
  | PNone => false
  | PBool b => b
  | PInt z => negb (z =? 0)
  | PFloat f => negb (PrimFloat.eqb f 0)
  | PStr s => negb (String.eqb s "")
  | PList l => match l with [] => false | _ :: _ => true end
  | PDict d => match d with [] => false | _ :: _ => true end
  end.

(** The keyword arguments a value unpacks to under the double-star
    operator of a call of [callee] (the name as error messages print it). *)
Definition py_kwargs (callee : string) (v : pyval)
  : result (list (string * pyval)) :=
  match v with
  | PDict d => Ok d
  | _ => Raise (type_error (callee ++ "() argument after ** must be a mapping, not "
                            ++ py_type_name v))
  end.

(** [s[:n]] and [s[-n:]] for a positive [n]. *)
Definition str_first (n : nat) (s : string) : string := String.substring 0 n s.
Definition str_last (n : nat) (s : string) : string :=
  String.substring (String.length s - n) n s.

Module Routes.
Import Wallet Handlers.

(** What a view returns: the JSON body and the HTTP status. *)
Record http_response : Type := { body : pyval; status_code : Z }.

(** The framework and the protocol package are left open: the name error
    messages print for the class [MCPRequest] (with its module), which
    keyword arguments it accepts, the dict of an [MCPResponse], the
    configured version ([current_app.config.get("VERSION", "1.0.0")]) and
    the text of a float under the format [.6f]. *)
Class WebLib : Type := {
  MCPRequest_name : string;
  MCPRequest_new : list (string * pyval) -> result MCPRequest;
  MCPResponse_dict : string -> pyval -> result pyval;
  config_VERSION : pyval;
  format_6f : float -> string
}.

Section Views.
Context `{PyRuntime} `{SolanaLib} `{WebLib}.

Definition error_body (msg : string) : pyval := PDict [("error", PStr msg)].

(** [mcp_query]; [get_json] is what [request.get_json()] returns or
    raises. *)
Definition mcp_query (get_json : result pyval) : M http_response :=
  try_except
    (data <- lift get_json ;;
     if negb (py_truthy data)
     then ret {| body := error_body "Invalid request: No JSON data provided";
                 status_code := 400 |}
     else
       match rbind (py_kwargs MCPRequest_name data) MCPRequest_new with
       | Raise e =>
           ret {| body := error_body ("Invalid MCP request format: " ++ exn_str e);
                  status_code := 400 |}
       | Ok mcp_request =>
           if String.prefix "wallet." (action mcp_request)
           then
             result <- handle_wallet_action mcp_request ;;
             response <- lift (MCPResponse_dict (id mcp_request) result) ;;
             ret {| body := response; status_code := 200 |}
           else
             ret {| body := error_body ("Unknown action: " ++ action mcp_request);
                    status_code := 400 |}
       end)
    (fun e => ret {| body := error_body ("Internal server error: " ++ exn_str e);
                     status_code := 500 |}).

(** The wallet address as [ping] shows it. *)
Definition masked (address : string) : string :=
  if negb (String.eqb address "not_initialized")
  then str_first 6 address ++ "..." ++ str_last 4 address
  else "not_initialized".

(** [ping] *)
Definition ping : M http_response :=
  seen <- try_except
            (wallet <- get_wallet ;;
             self <- the_object wallet "network" ;;
             o <- load self ;;
             ret (network o, public_key o, "ready"))
            (fun _ => ret ("unknown", "not_initialized", "initializing")) ;;
  let '(network, address, status) := seen in
  ret {| body := PDict [("service", PStr "solana-vault-mcp");
                        ("status", PStr status);
                        ("network", PStr network);
                        ("wallet", PStr (masked address));
                        ("version", config_VERSION)];
         status_code := 200 |}.

(** [index] of app/routes/web.py *)
Definition index : M http_response :=
  try_except
    (wallet <- get_wallet ;;
     self <- the_object wallet "public_key" ;;
     o <- load self ;;
     balance <- get_balance self ;;
     ret {| body :=
              PDict [("service", PStr "Solana Vault MCP");
                     ("status", PStr "running");
                     ("endpoints",
                       PDict [("mcp_query", PStr "/api/mcp/query");
                              ("health", PStr "/api/mcp/ping")]);
                     ("wallet",
                       PDict [("address", PStr (public_key o));
                              ("network", PStr (network o));
                              ("balance", PStr (format_6f balance ++ " SOL"))])];
            status_code := 200 |})
    (fun e => ret {| body := PDict [("service", PStr "Solana Vault MCP");
                                    ("status", PStr "initializing");
                                    ("error", PStr (exn_str e))];
                     status_code := 200 |}).

(** [health] of app/routes/web.py *)
Definition health : M http_response :=
  try_except
    (wallet <- get_wallet ;;
     self <- the_object wallet "public_key" ;;
     o <- load self ;;
     ret {| body := PDict [("status", PStr "healthy");
                           ("wallet_initialized", PBool true);
                           ("wallet_address", PStr (public_key o));
                           ("network", PStr (network o))];
            status_code := 200 |})
    (fun e => ret {| body := PDict [("status", PStr "initializing");
                                    ("wallet_initialized", PBool false);
                                    ("error", PStr (exn_str e))];
                     status_code := 503 |}).

End Views.
End Routes.

(** ** app/__init__.py *)

Module App.
Import Wallet.

Section Startup.
Context `{PyRuntime} `{SolanaLib}.

(** The last step of [create_app]: the wallet is initialized when a
    private key is configured; a failure is logged, not raised.  An unset
    or empty key counts as none. *)
Definition create_app_wallet (SOLANA_PRIVATE_KEY : option string)
    (RPC_URL : string) : M unit :=
  match SOLANA_PRIVATE_KEY with
  | Some key =>
      if negb (String.eqb key "")
      then
        try_except
          (_ <- initialize_wallet key RPC_URL ;; ret tt)
          (fun e => ret tt)
      else ret tt
  | None => ret tt
  end.

End Startup.
End App.

(** ** The stand-ins of tests/test_wallet.py *)

Module Fixture.
Import Wallet Handlers.

Definition TEST_PRIVATE_KEY : string :=
  "4xQDeV6gJWXxDeze9FLDpVBJ9Sgn7S4XiWpwmDG6qDQvG9Fmo4NaUUbKsUNt6uQS3WRMHMgibLXzNRAfyoUdnwYH".
Definition TEST_PUBLIC_KEY : string := "DRKgF2S4XWScdP8rr1vFLKMJJbTKBcX8FXMvrK9uYEsc".
Definition TEST_RPC_URL : string := "https://api.devnet.solana.com".
Definition TEST_RECIPIENT : string := "BVEgXEiMhGfusNB7jrVJfgKNqsvEQj5LpxsAVpvPzxZQ".

(** The Bitcoin base58 alphabet: digits and letters without 0, O, I, l. *)
Definition is_base58 (a : ascii) : bool :=
  let n := nat_of_ascii a in
  ((49 <=? n) && (n <=? 57) ||
   (65 <=? n) && (n <=? 90) && negb (n =? 73) && negb (n =? 79) ||
   (97 <=? n) && (n <=? 122) && negb (n =? 108))%nat.

(** A key check standing in for [PublicKey]: base58 text of the length of
    a 32-byte key. *)
Definition mock_PublicKey (v : pyval) : result PublicKey :=
  match v with
  | PStr s =>
      if forallb is_base58 (list_ascii_of_string s)
         && (32 <=? String.length s)%nat && (String.length s <=? 44)%nat
      then Ok {| pk_base58 := s |}
      else Raise (Exn ValueError "invalid public key input")
  | _ => Raise (Exn ValueError "invalid public key input")
  end.

(** [base58.b58decode] is not patched by the tests and refuses text
    outside the alphabet; [mock_keypair] then yields the test public key
    for every secret key. *)
Definition mock_Keypair (secret : string) : result Keypair :=
  if forallb is_base58 (list_ascii_of_string secret)
  then Ok {| kp_secret_key := secret;
             kp_public_key := {| pk_base58 := TEST_PUBLIC_KEY |} |}
  else Raise (Exn ValueError "Invalid character").

(** [mock_solana_client], with the [send_transaction] reply that
    [test_transfer_sol] sets up. *)
Definition mock_client (history : list rpc_event) (ev : rpc_event) : result pyval :=
  match snd ev with
  | RpcGetVersion =>
      Ok (PDict [("result", PDict [("solana-core", PStr "1.14.10")])])
  | RpcGetBalance _ =>
      Ok (PDict [("result", PDict [("value", PInt 1500000000)])])
  | RpcGetSignaturesForAddress _ _ =>
      Ok (PDict [("result",
                  PList [PDict [("signature", PStr "test_signature");
                                ("slot", PInt 123456789);
                                ("err", PNone);
                                ("blockTime", PInt 1632152400)]])])
  | RpcSendTransaction _ _ _ =>
      Ok (PDict [("result", PStr "transaction_signature")])
  | RpcGetTransaction _ =>
      Ok (PDict [("result", PNone)])
  end.

(** The error of the instruction encoder for an amount it cannot carry. *)
Definition mock_out_of_range (amount : Z) : exn :=
  Exn (OtherException "FormatFieldError") "amount out of range for an unsigned 64-bit field".

#[export] Instance mock_lib : SolanaLib := {|
  PublicKey_new := mock_PublicKey;
  Keypair_from_secret_key := mock_Keypair;
  rpc_reply := mock_client;
  transfer_out_of_range := mock_out_of_range
|}.

(** The value of a string of decimal digits. *)
Fixpoint digits_value (acc : Z) (s : string) : option Z :=
  match s with
  | EmptyString => Some acc
  | String a s' =>
      let n := nat_of_ascii a in
      if ((48 <=? n) && (n <=? 57))%nat
      then digits_value (10 * acc + Z.of_nat (n - 48)) s'
      else None
  end.

(** A runtime that reads plain decimal integers only (an optional minus
    sign and digits), prints no value and has a stopped clock; enough to
    run the examples below. *)
Definition plain_int (s : string) : option Z :=
  match s with
  | EmptyString => None
  | String "-" (String _ _ as s') => option_map Z.opp (digits_value 0 s')
  | _ => digits_value 0 s
  end.

#[export] Instance plain_runtime : PyRuntime := {|
  float_of_str := fun s =>
    match plain_int s with
    | Some z => match py_float_of_int z with Ok f => Some f | Raise _ => None end
    | None => None
    end;
  int_of_str := plain_int;
  py_repr := fun v => "<" ++ py_type_name v ++ ">";
  now_isoformat := fun _ => "2021-09-20T15:40:00"
|}.

(** The wallet object [SolanaWallet(TEST_PRIVATE_KEY, TEST_RPC_URL)] builds
    against these stand-ins, and the process state once
    [initialize_wallet] has registered it. *)
Definition fixture_wallet : SolanaWallet :=
  {| keypair := {| kp_secret_key := TEST_PRIVATE_KEY;
                   kp_public_key := {| pk_base58 := TEST_PUBLIC_KEY |} |};
     public_key := TEST_PUBLIC_KEY;
     client := TEST_RPC_URL;
     network_version := PDict [("result", PDict [("solana-core", PStr "1.14.10")])];
     network := "devnet";
     tx_history := [] |}.

Definition fixture_world : world :=
  {| heap := [fixture_wallet]; _wallet_instance := Some 0%nat;
     rpc_log := [(TEST_RPC_URL, RpcGetVersion)]; clock := 0 |}.

Definition fixture_balance_reply : pyval :=
  PDict [("result", PDict [("value", PInt 1500000000)])].

Definition fixture_send_reply : pyval :=
  PDict [("result", PStr "transaction_signature")].

(** The stand-ins with another RPC client in place of [mock_client]. *)
Definition lib_with_client
    (client : list rpc_event -> rpc_event -> result pyval) : SolanaLib :=
  {| PublicKey_new := mock_PublicKey;
     Keypair_from_secret_key := mock_Keypair;
     rpc_reply := client;
     transfer_out_of_range := mock_out_of_range |}.

(** An endpoint that answers every submission with an error. *)
Definition rejecting_client (history : list rpc_event) (ev : rpc_event)
  : result pyval :=
  match snd ev with
  | RpcSendTransaction _ _ _ =>
      Ok (PDict [("error", PDict [("code", PInt (-32002));
                                  ("message", PStr "Transaction simulation failed")])])
  | _ => mock_client history ev
  end.

(** An endpoint that reports the given balance. *)
Definition balance_client (balance : Z) (history : list rpc_event) (ev : rpc_event)
  : result pyval :=
  match snd ev with
  | RpcGetBalance _ => Ok (PDict [("result", PDict [("value", PInt balance)])])
  | _ => mock_client history ev
  end.

(** An endpoint whose version reply names no version. *)
Definition versionless_client (history : list rpc_event) (ev : rpc_event)
  : result pyval :=
  match snd ev with
  | RpcGetVersion => Ok (PDict [("result", PDict [])])
  | _ => mock_client history ev
  end.

Definition fixture_summary : pyval :=
  PDict [("signature", PStr "test_signature"); ("slot", PInt 123456789);
         ("err", PNone); ("blockTime", PInt 1632152400)].

(** A protocol package standing in for [model_context_protocol]: a request
    needs a string [id] and a string [action], and [params] is absent,
    [None] or a dict; a response is the dict of its [id] and [result]. *)
Definition mock_MCPRequest (kwargs : list (string * pyval)) : result MCPRequest :=
  match dict_lookup "id" kwargs, dict_lookup "action" kwargs with
  | Some (PStr i), Some (PStr a) =>
      match dict_lookup "params" kwargs with
      | None | Some PNone => Ok {| id := i; action := a; params := None |}
      | Some (PDict d) => Ok {| id := i; action := a; params := Some d |}
      | Some _ => Raise (Exn ValueError "validation error for MCPRequest")
      end
  | _, _ => Raise (Exn ValueError "validation error for MCPRequest")
  end.

#[export] Instance mock_web : Routes.WebLib := {|
  Routes.MCPRequest_name := "model_context_protocol.MCPRequest";
  Routes.MCPRequest_new := mock_MCPRequest;
  Routes.MCPResponse_dict := fun i r => Ok (PDict [("id", PStr i); ("result", r)]);
  Routes.config_VERSION := PStr "1.0.0";
  Routes.format_6f := fun _ => "<float>"
|}.

End Fixture.


(** * Properties *)

(** ** Strings: what [str_contains] decides *)

(** [sub] occurs in [s]. *)
Definition Substring (sub s : string) : Prop :=
  exists before after, s = before ++ sub ++ after.

Lemma prefix_true_iff (p s : string) :
  String.prefix p s = true <-> exists after, s = p ++ after.
Proof.
  revert s; induction p as [|a p IH]; intros s.
  - split; [intros _; now exists s | intros _; now destruct s].
  - destruct s as [|b s]; simpl.
    + split; [discriminate | intros [t Ht]; discriminate].
    + destruct (ascii_dec a b) as [->|Hab].
      * rewrite IH. split; intros [t Ht]; exists t; congruence.
      * split; [discriminate | intros [t Ht]; congruence].
Qed.

Lemma str_contains_iff (sub s : string) :
  str_contains sub s = true <-> Substring sub s.
Proof.
  unfold Substring. induction s as [|a s IH]; cbn [str_contains].
  - rewrite orb_false_r, prefix_true_iff. split.
    + intros [t Ht]. now exists "", t.
    + intros [[|b u] [t Ht]]; simpl in Ht; [now exists t | discriminate].
  - rewrite orb_true_iff, prefix_true_iff, IH. split.
    + intros [[t Ht] | (u & t & Ht)].
      * now exists "", t.
      * exists (String a u), t. simpl. now rewrite Ht.
    + intros ([|b u] & t & Ht); simpl in Ht.
      * left. now exists t.
      * right. exists u, t. congruence.
Qed.

Lemma str_contains_false_iff (sub s : string) :
  str_contains sub s = false <-> ~ Substring sub s.
Proof.
  rewrite <- str_contains_iff. destruct (str_contains sub s); split; congruence.
Qed.

(** ** Numbers: the range of a truncated float *)

Lemma digits2_pos_bound (m : positive) :
  Zpos m < 2 ^ Zpos (digits2_pos m).
Proof.
  induction m as [m IH|m IH|]; simpl digits2_pos.
  - rewrite Pos2Z.inj_succ, Z.pow_succ_r by lia. lia.
  - rewrite Pos2Z.inj_succ, Z.pow_succ_r by lia. lia.
  - reflexivity.
Qed.

(** A finite binary64 number has a mantissa below [2^53] and an exponent
    of at most 971. *)
Lemma finite_float_bounds (f : float) (s : bool) (m : positive) (e : Z) :
  Prim2SF f = S754_finite s m e -> Zpos m < 2 ^ 53 /\ e <= 971.
Proof.
  intros Hf. pose proof (Prim2SF_valid f) as Hv. rewrite Hf in Hv.
  unfold valid_binary, bounded, canonical_mantissa, fexp, emin, prec, emax in Hv.
  change IntDef.Z.max with Z.max in Hv.
  apply andb_true_iff in Hv as [Hc He].
  apply Z.eqb_eq in Hc. apply Z.leb_le in He.
  pose proof (digits2_pos_bound m) as Hd.
  assert (Hle : Zpos (digits2_pos m) <= 53) by lia.
  split; [|lia].
  eapply Z.lt_le_trans; [exact Hd|].
  apply Z.pow_le_mono_r; lia.
Qed.

(** The int a float truncates to converts back to a float without
    overflow, and so does every int of smaller magnitude. *)
Lemma py_int_of_float_range (f : float) (z : Z) :
  py_int_of_float f = Ok z -> Z.abs z < float_overflow_threshold.
Proof.
  unfold py_int_of_float. destruct (Prim2SF f) as [b|b| |s m e] eqn:Hf;
    try discriminate.
  - intros [= <-]. reflexivity.
  - intros [= <-]. apply finite_float_bounds in Hf as [Hm He].
    assert (Ha : 0 <= (if 0 <=? e then Z.shiftl (Zpos m) e
                       else Z.shiftr (Zpos m) (- e))
                 <= (2 ^ 53 - 1) * 2 ^ 971).
    { destruct (0 <=? e) eqn:Hs.
      - apply Z.leb_le in Hs. rewrite Z.shiftl_mul_pow2 by lia.
        assert (0 < 2 ^ e) by (apply Z.pow_pos_nonneg; lia).
        assert (2 ^ e <= 2 ^ 971) by (apply Z.pow_le_mono_r; lia).
        split; [lia|]. apply Z.mul_le_mono_nonneg; lia.
      - apply Z.leb_gt in Hs. rewrite Z.shiftr_div_pow2 by lia.
        assert (0 < 2 ^ (- e)) by (apply Z.pow_pos_nonneg; lia).
        split; [apply Z.div_pos; lia|].
        assert (Zpos m / 2 ^ (- e) <= Zpos m)
          by (apply Z.div_le_upper_bound; nia).
        assert (2 ^ 53 - 1 <= (2 ^ 53 - 1) * 2 ^ 971) by (vm_compute; discriminate).
        lia. }
    assert (Hb : (2 ^ 53 - 1) * 2 ^ 971 < float_overflow_threshold)
      by (vm_compute; reflexivity).
    destruct s; lia.
Qed.

(** A floating-point datum that is not below zero: a zero of either sign, a
    positive number, the positive infinity, or NaN. *)
Definition not_negative (x : spec_float) : Prop :=
  match x with
  | S754_finite s _ _ | S754_infinity s => s = false
  | _ => True
  end.

Lemma binary_round_aux_sign (s : bool) (m e : Z) (l : location) :
  match binary_round_aux prec emax s m e l with
  | S754_finite s' _ _ | S754_infinity s' | S754_zero s' => s' = s
  | S754_nan => True
  end.
Proof.
  unfold binary_round_aux.
  destruct (shr_fexp prec emax m e l) as [mrs' e'].
  destruct (shr_fexp prec emax _ e' loc_Exact) as [mrs'' e''].
  destruct (shr_m mrs''); [reflexivity| |exact I].
  destruct (e'' <=? emax - prec); reflexivity.
Qed.

(** Multiplying by the factor 1e9 keeps the sign. *)
Lemma mul_1e9_not_negative (x : float) :
  not_negative (Prim2SF x) -> not_negative (Prim2SF (x * 1000000000)%float).
Proof.
  rewrite mul_spec. unfold SF64mul.
  replace (Prim2SF 1000000000%float) with (S754_finite false 8388608000000000 (-23))
    by (vm_compute; reflexivity).
  destruct (Prim2SF x) as [s|s| |s m e]; cbn [not_negative SFmul].
  - intros _. exact I.
  - intros ->. reflexivity.
  - intros _. exact I.
  - intros ->. cbn [xorb].
    pose proof (binary_round_aux_sign false (Zpos (m * 8388608000000000))
                  (e + -23) loc_Exact) as Hs.
    destruct (binary_round_aux _ _ _ _ _ _); cbn; auto.
Qed.

Lemma positive_not_negative (x : float) :
  (0 <? x)%float = true -> not_negative (Prim2SF x).
Proof.
  rewrite ltb_spec.
  replace (Prim2SF 0%float) with (S754_zero false) by (vm_compute; reflexivity).
  unfold SFltb, SFcompare.
  destruct (Prim2SF x) as [s|s| |s m e]; cbn [not_negative]; try (intros _; exact I).
  - now destruct s.
  - now destruct s.
Qed.

Lemma not_le_zero_not_negative (x : float) :
  (x <=? 0)%float = false -> not_negative (Prim2SF x).
Proof.
  rewrite leb_spec.
  replace (Prim2SF 0%float) with (S754_zero false) by (vm_compute; reflexivity).
  unfold SFleb, SFcompare.
  destruct (Prim2SF x) as [s|s| |s m e]; cbn [not_negative]; try (intros _; exact I).
  - now destruct s.
  - now destruct s.
Qed.

(** Truncation keeps the sign too. *)
Lemma py_int_of_float_not_negative (f : float) (z : Z) :
  not_negative (Prim2SF f) -> py_int_of_float f = Ok z -> 0 <= z.
Proof.
  unfold py_int_of_float.
  destruct (Prim2SF f) as [s|s| |s m e]; cbn [not_negative]; try discriminate.
  - intros _ [= <-]. lia.
  - intros -> [= <-]. destruct (0 <=? e) eqn:Hs.
    + apply Z.leb_le in Hs. apply Z.shiftl_nonneg. lia.
    + apply Z.shiftr_nonneg. lia.
Qed.

(** The base-unit value of an amount above zero is never negative. *)
Lemma positive_amount_lamports (amount : float) (z : Z) :
  (0 <? amount)%float = true ->
  py_int_of_float (amount * 1000000000)%float = Ok z -> 0 <= z.
Proof.
  intros Hpos. apply py_int_of_float_not_negative, mul_1e9_not_negative.
  now apply positive_not_negative.
Qed.

Lemma accepted_amount_lamports (amount : float) (z : Z) :
  (amount <=? 0)%float = false ->
  py_int_of_float (amount * 1000000000)%float = Ok z -> 0 <= z.
Proof.
  intros Hpos. apply py_int_of_float_not_negative, mul_1e9_not_negative.
  now apply not_le_zero_not_negative.
Qed.

Lemma py_float_of_int_small (z : Z) :
  Z.abs z < float_overflow_threshold ->
  py_float_of_int z = Ok (SF2Prim (binary_normalize 53 1024 z 0 false)).
Proof.
  intros Hz. unfold py_float_of_int.
  destruct (float_overflow_threshold <=? Z.abs z) eqn:Ht; [|reflexivity].
  apply Z.leb_le in Ht. lia.
Qed.

(** The threshold is where rounding to nearest leaves the finite range. *)
Example float_overflow_threshold_exact :
  binary_normalize 53 1024 float_overflow_threshold 0 false = S754_infinity false /\
  binary_normalize 53 1024 (float_overflow_threshold - 1) 0 false
  = S754_finite false (2 ^ 53 - 1) 971.
Proof. split; vm_compute; reflexivity. Qed.

(** ** Dicts: reading back after an assignment under a string key *)

Lemma py_key_eqb_str_l (s : string) (k : pyval) :
  py_key_eqb (PStr s) k = true <-> k = PStr s.
Proof.
  destruct k; simpl; try (split; [discriminate | discriminate]).
  rewrite String.eqb_eq. split; [intros ->; reflexivity | intros [= ->]; reflexivity].
Qed.

Lemma py_key_eqb_str_r (s : string) (k : pyval) :
  py_key_eqb k (PStr s) = true <-> k = PStr s.
Proof.
  destruct k; simpl; try (split; [discriminate | discriminate]).
  rewrite String.eqb_eq. split; [intros ->; reflexivity | intros [= ->]; reflexivity].
Qed.

Section PyDict.
Context {V : Type}.
Implicit Types (d : list (pyval * V)) (s : string) (k : pyval) (v : V).

Lemma pydict_get_set_eq d s v :
  pydict_get (PStr s) (pydict_set (PStr s) v d) = Some v.
Proof.
  induction d as [|[k' v'] d IH]; cbn [pydict_get pydict_set].
  - cbn. now rewrite String.eqb_refl.
  - destruct (py_key_eqb k' (PStr s)) eqn:Hk; cbn [pydict_get]; now rewrite Hk.
Qed.

Lemma pydict_get_set_ne d s k v :
  k <> PStr s -> pydict_get k (pydict_set (PStr s) v d) = pydict_get k d.
Proof.
  intros Hne.
  assert (Hs : py_key_eqb (PStr s) k = false).
  { destruct (py_key_eqb (PStr s) k) eqn:E; [|reflexivity].
    apply py_key_eqb_str_l in E. contradiction. }
  induction d as [|[k' v'] d IH]; cbn [pydict_get pydict_set].
  - now rewrite Hs.
  - destruct (py_key_eqb k' (PStr s)) eqn:Hk; cbn [pydict_get pydict_set].
    + apply py_key_eqb_str_r in Hk as ->. now rewrite Hs.
    + now rewrite IH.
Qed.

Lemma pydict_set_length_fresh d s v :
  pydict_get (PStr s) d = None ->
  length (pydict_set (PStr s) v d) = S (length d).
Proof.
  induction d as [|[k' v'] d IH]; cbn [pydict_get pydict_set]; [reflexivity|].
  destruct (py_key_eqb k' (PStr s)); [discriminate|].
  intros Hn. simpl. now rewrite IH.
Qed.

Lemma pydict_set_length_present d s v v0 :
  pydict_get (PStr s) d = Some v0 ->
  length (pydict_set (PStr s) v d) = length d.
Proof.
  induction d as [|[k' v'] d IH]; cbn [pydict_get pydict_set]; [discriminate|].
  destruct (py_key_eqb k' (PStr s)); [reflexivity|].
  intros Hn. simpl. now rewrite IH.
Qed.

End PyDict.

(** ** The statements' vocabulary *)

Import Wallet.

(** The balance lookup a wallet object makes, and the submission of a
    transfer of [amount] base units to [recipient], as RPC events. *)
Definition balance_call (o : SolanaWallet) : rpc_event :=
  (client o, RpcGetBalance (kp_public_key (keypair o))).

Definition transfer_call (o : SolanaWallet) (recipient : PublicKey) (amount : Z)
  : rpc_event :=
  (client o,
   RpcSendTransaction
     [SystemTransfer {| from_pubkey := kp_public_key (keypair o);
                  to_pubkey := recipient; lamports := amount |}]
     (keypair o)
     {| skip_preflight := false; preflight_commitment := Confirmed |}).

(** A reply [{"result": {"value": b, ...}, ...}] with an int [b]. *)
Definition reports_balance (resp : pyval) (b : Z) : Prop :=
  exists d dv, resp = PDict d /\ dict_lookup "result" d = Some (PDict dv) /\
               dict_lookup "value" dv = Some (PInt b).

(** A reply [{"result": sig, ...}] with a string [sig] and no ["error"]. *)
Definition reports_signature (resp : pyval) (sig : string) : Prop :=
  exists d, resp = PDict d /\ dict_lookup "error" d = None /\
            dict_lookup "result" d = Some (PStr sig).

(** The submissions among the calls made. *)
Definition submissions (w : world) : list rpc_event :=
  List.filter is_submission (rpc_log w).

Definition not_initialized : exn :=
  Exn ValueError "Wallet not initialized. Call initialize_wallet first.".

(** The world once an object [o] has been created and stored in the
    registry. *)
Definition registered (o : SolanaWallet) (w : world) : world :=
  {| heap := (heap w ++ [o])%list; _wallet_instance := Some (length (heap w));
     rpc_log := rpc_log w; clock := clock w |}.

(** The world once a call on an RPC client has been recorded. *)
Definition logged (ev : rpc_event) (w : world) : world :=
  {| heap := heap w; _wallet_instance := _wallet_instance w;
     rpc_log := (rpc_log w ++ [ev])%list; clock := clock w |}.

(** Case analysis on the next branch of a run. *)
Ltac run_step :=
  match goal with
  | |- context [match ?x with _ => _ end] =>
      lazymatch x with
      | context [match _ with _ => _ end] => fail
      | _ => destruct x eqn:?
      end
  | |- context [if ?x then _ else _] =>
      lazymatch x with
      | context [if _ then _ else _] => fail
      | _ => destruct x eqn:?
      end
  end.

Section Registry.
Context `{PyRuntime} `{SolanaLib}.

(** ** C9: network names *)

(** C9. The network name of an endpoint URL is decided by the substrings
    the URL contains, tried in the order mainnet, testnet, devnet: the
    first that occurs names the network, and a URL with none of them is
    "unknown". *)
Theorem network_name_by_priority (rpc_url : string) :
  (Substring "mainnet" rpc_url -> _get_network_name rpc_url = "mainnet") /\
  (~ Substring "mainnet" rpc_url -> Substring "testnet" rpc_url ->
   _get_network_name rpc_url = "testnet") /\
  (~ Substring "mainnet" rpc_url -> ~ Substring "testnet" rpc_url ->
   Substring "devnet" rpc_url -> _get_network_name rpc_url = "devnet") /\
  (~ Substring "mainnet" rpc_url -> ~ Substring "testnet" rpc_url ->
   ~ Substring "devnet" rpc_url -> _get_network_name rpc_url = "unknown").
Proof.
  unfold _get_network_name.
  repeat split; intros;
    repeat match goal with
      | Hs : Substring _ _ |- _ => apply str_contains_iff in Hs; rewrite Hs
      | Hn : ~ Substring _ _ |- _ => apply str_contains_false_iff in Hn; rewrite Hn
      end; reflexivity.
Qed.

(** ** The registry *)

(** Construction touches the RPC log only: at most the version request is
    added. *)
Lemma SolanaWallet_init_frame (private_key rpc_url : string) (w w1 : world)
    (r : result SolanaWallet) :
  SolanaWallet_init private_key rpc_url w = (r, w1) ->
  heap w1 = heap w /\ _wallet_instance w1 = _wallet_instance w /\
  clock w1 = clock w /\
  (rpc_log w1 = rpc_log w \/
   rpc_log w1 = (rpc_log w ++ [(rpc_url, RpcGetVersion)])%list).
Proof.
  unfold SolanaWallet_init, try_except, bind, lift, call_rpc, raise, ret.
  repeat (run_step; cbn [fst snd negb]);
    intros [= <- <-]; cbn; auto.
Qed.

Lemma initialize_wallet_unset (private_key rpc_url : string) (w : world) :
  _wallet_instance w = None ->
  initialize_wallet private_key rpc_url w =
  match SolanaWallet_init private_key rpc_url w with
  | (Ok o, w1) => (Ok (Some (length (heap w1))), registered o w1)
  | (Raise e, w1) => (Raise e, w1)
  end.
Proof.
  intros Hnone.
  unfold initialize_wallet, SolanaWallet_new, try_except, bind, read_instance,
    write_instance, alloc, raise, ret.
  rewrite Hnone.
  destruct (SolanaWallet_init private_key rpc_url w) as [[o|e] w1].
  - reflexivity.
  - reflexivity.
Qed.

Lemma initialize_wallet_set (private_key rpc_url : string) (w : world) (l : nat) :
  _wallet_instance w = Some l ->
  initialize_wallet private_key rpc_url w = (Ok (Some l), w).
Proof.
  intros Hsome.
  unfold initialize_wallet, bind, read_instance, ret. rewrite Hsome. cbn.
  now rewrite Hsome.
Qed.

Lemma get_wallet_unset (w : world) :
  _wallet_instance w = None -> get_wallet w = (Raise not_initialized, w).
Proof.
  intros Hnone. unfold get_wallet, bind, read_instance, raise. rewrite Hnone.
  reflexivity.
Qed.

Lemma get_wallet_set (w : world) (l : nat) :
  _wallet_instance w = Some l -> get_wallet w = (Ok (Some l), w).
Proof.
  intros Hsome. unfold get_wallet, bind, read_instance. rewrite Hsome. cbn.
  now rewrite Hsome.
Qed.

(** What a successful [initialize_wallet] returns is an object, and it is
    the one the registry holds afterwards. *)
Lemma initialize_wallet_returns_stored (private_key rpc_url : string)
    (w w' : world) (r : option nat) :
  initialize_wallet private_key rpc_url w = (Ok r, w') ->
  exists l, r = Some l /\ _wallet_instance w' = Some l.
Proof.
  destruct (_wallet_instance w) as [l|] eqn:Hslot.
  - rewrite (initialize_wallet_set _ _ _ _ Hslot). intros [= <- <-]. eauto.
  - rewrite (initialize_wallet_unset _ _ _ Hslot).
    destruct (SolanaWallet_init private_key rpc_url w) as [[o|e] w1].
    + intros [= <- <-]. eauto.
    + discriminate.
Qed.

(** The ways construction fails: key material that does not decode, an
    endpoint that does not answer, an answer without a ["result"]. *)
Lemma init_fails_on_bad_key (private_key rpc_url : string) (w : world) (e : exn) :
  Keypair_from_secret_key private_key = Raise e ->
  SolanaWallet_init private_key rpc_url w =
  (Raise (Exn ValueError ("Failed to initialize Solana wallet: " ++ exn_str e)), w).
Proof.
  intros Hk. unfold SolanaWallet_init, try_except, bind, lift, raise.
  rewrite Hk. reflexivity.
Qed.

Lemma init_fails_on_unreachable_endpoint (private_key rpc_url : string)
    (w : world) (kp : Keypair) (e : exn) :
  Keypair_from_secret_key private_key = Ok kp ->
  rpc_reply (rpc_log w) (rpc_url, RpcGetVersion) = Raise e ->
  SolanaWallet_init private_key rpc_url w =
  (Raise (Exn ValueError ("Failed to initialize Solana wallet: " ++ exn_str e)),
   logged (rpc_url, RpcGetVersion) w).
Proof.
  intros Hk Hr. unfold SolanaWallet_init, try_except, bind, lift, raise, call_rpc.
  rewrite Hk. cbn. rewrite Hr. reflexivity.
Qed.

Lemma init_fails_on_unrecognized_version (private_key rpc_url : string)
    (w : world) (kp : Keypair) (resp : pyval) :
  Keypair_from_secret_key private_key = Ok kp ->
  rpc_reply (rpc_log w) (rpc_url, RpcGetVersion) = Ok resp ->
  py_contains "result" resp = Ok false ->
  SolanaWallet_init private_key rpc_url w =
  (Raise (Exn ValueError ("Failed to initialize Solana wallet: "
                          ++ "Failed to connect to Solana RPC: " ++ py_str resp)),
   logged (rpc_url, RpcGetVersion) w).
Proof.
  intros Hk Hr Hc. unfold SolanaWallet_init, try_except, bind, lift, raise, call_rpc.
  rewrite Hk. cbn. rewrite Hr, Hc. reflexivity.
Qed.

(** A run of [initialize_wallet] calls, one after the other. *)
Fixpoint initialize_all (calls : list (string * string)) (w : world)
  : list (result (option nat)) * world :=
  match calls with
  | [] => ([], w)
  | (private_key, rpc_url) :: rest =>
      let (r, w') := initialize_wallet private_key rpc_url w in
      let (rs, w'') := initialize_all rest w' in
      (r :: rs, w'')
  end.

Lemma initialize_all_set (calls : list (string * string)) (w : world) (l : nat) :
  _wallet_instance w = Some l ->
  initialize_all calls w = (map (fun _ => Ok (Some l)) calls, w).
Proof.
  intros Hsome. induction calls as [|[k u] calls IH]; cbn [initialize_all map].
  - reflexivity.
  - rewrite (initialize_wallet_set k u w l Hsome), IH. reflexivity.
Qed.

(** C6. Initialization is idempotent: on an empty registry the first
    [initialize_wallet] constructs a wallet, stores it and returns it; every
    later call, whatever its arguments, returns that same object and leaves
    the world as it is: no wallet is constructed, no endpoint is contacted. *)
Theorem initialize_wallet_idempotent (private_key rpc_url : string)
    (w w1 : world) (o : SolanaWallet) :
  _wallet_instance w = None ->
  SolanaWallet_init private_key rpc_url w = (Ok o, w1) ->
  let l := length (heap w) in
  initialize_wallet private_key rpc_url w = (Ok (Some l), registered o w1) /\
  heap (registered o w1) !! l = Some o /\
  (forall calls : list (string * string),
     initialize_all calls (registered o w1)
     = (map (fun _ => Ok (Some l)) calls, registered o w1)) /\
  (forall (private_key' rpc_url' : string) (w' : world),
     _wallet_instance w' = Some l ->
     initialize_wallet private_key' rpc_url' w' = (Ok (Some l), w')).
Proof.
  intros Hnone Hinit l.
  destruct (SolanaWallet_init_frame _ _ _ _ _ Hinit) as (Hheap & _).
  assert (Hl : length (heap w1) = l) by (unfold l; now rewrite Hheap).
  repeat split.
  - rewrite (initialize_wallet_unset _ _ _ Hnone), Hinit, Hl. reflexivity.
  - cbn [registered heap]. rewrite <- Hl. apply list_lookup_middle. reflexivity.
  - intros calls. apply initialize_all_set. cbn. now rewrite Hl.
  - intros k' u' w' Hsome. now apply initialize_wallet_set.
Qed.

(** C7. [get_wallet] on an empty registry raises the not-initialized
    error; whatever it returns is an object, never [None]: the one the
    registry holds; and after a successful [initialize_wallet] it returns
    the object that call returned. *)
Theorem get_wallet_requires_initialization (w : world) :
  (_wallet_instance w = None -> get_wallet w = (Raise not_initialized, w)) /\
  (forall (r : option nat) (w' : world),
     get_wallet w = (Ok r, w') ->
     exists l, r = Some l /\ _wallet_instance w = Some l /\ w' = w) /\
  (forall (private_key rpc_url : string) (r : option nat) (w' : world),
     initialize_wallet private_key rpc_url w = (Ok r, w') ->
     r <> None /\ get_wallet w' = (Ok r, w')).
Proof.
  split; [|split].
  - apply get_wallet_unset.
  - intros r w' Hget. destruct (_wallet_instance w) as [l|] eqn:Hslot.
    + rewrite (get_wallet_set _ _ Hslot) in Hget.
      injection Hget as <- <-. eauto.
    + rewrite (get_wallet_unset _ Hslot) in Hget. discriminate.
  - intros private_key rpc_url r w' Hinit.
    apply initialize_wallet_returns_stored in Hinit as (l & -> & Hslot).
    split; [discriminate | now apply get_wallet_set].
Qed.

(** C10. A failed construction leaves the registry as it was: the
    exception of the constructor propagates out of [initialize_wallet], the
    slot stays empty and no object is created, so [get_wallet] still raises
    the not-initialized error, and the next [initialize_wallet] runs the
    constructor again (and registers the wallet if it then succeeds). *)
Theorem failed_initialization_leaves_registry_unset (private_key rpc_url : string)
    (w w1 : world) (e : exn) :
  _wallet_instance w = None ->
  SolanaWallet_init private_key rpc_url w = (Raise e, w1) ->
  initialize_wallet private_key rpc_url w = (Raise e, w1) /\
  _wallet_instance w1 = None /\
  heap w1 = heap w /\
  get_wallet w1 = (Raise not_initialized, w1) /\
  (forall private_key' rpc_url' : string,
     initialize_wallet private_key' rpc_url' w1 =
     match SolanaWallet_init private_key' rpc_url' w1 with
     | (Ok o, w2) => (Ok (Some (length (heap w2))), registered o w2)
     | (Raise e', w2) => (Raise e', w2)
     end).
Proof.
  intros Hnone Hinit.
  destruct (SolanaWallet_init_frame _ _ _ _ _ Hinit) as (Hheap & Hslot & _).
  rewrite Hnone in Hslot.
  repeat split.
  - rewrite (initialize_wallet_unset _ _ _ Hnone), Hinit. reflexivity.
  - exact Hslot.
  - exact Hheap.
  - now apply get_wallet_unset.
  - intros k' u'. now apply initialize_wallet_unset.
Qed.

End Registry.

Section Transfers.
Context `{PyRuntime} `{SolanaLib}.

Lemma reports_balance_lookups (resp : pyval) (b : Z) :
  reports_balance resp b ->
  py_contains "result" resp = Ok true /\
  exists r, py_getitem resp "result" = Ok r /\ py_getitem r "value" = Ok (PInt b).
Proof.
  intros (d & dv & -> & Hd & Hv). cbn [py_contains py_getitem]. rewrite Hd.
  split; [reflexivity|]. exists (PDict dv). cbn [py_getitem]. now rewrite Hv.
Qed.

Lemma reports_signature_lookups (resp : pyval) (sig : string) :
  reports_signature resp sig ->
  py_contains "error" resp = Ok false /\ py_contains "result" resp = Ok true /\
  py_getitem resp "result" = Ok (PStr sig).
Proof.
  intros (d & -> & He & Hr). cbn [py_contains py_getitem]. now rewrite He, Hr.
Qed.

(** The message of the insufficient-balance error, as [transfer_sol]
    re-raises it. *)
Definition insufficient_balance (available amount : float) : exn :=
  Exn ValueError ("Failed to transfer SOL: "
                  ++ ("Insufficient balance. Available: " ++ py_str (PFloat available)
                      ++ " SOL, Requested: " ++ py_str (PFloat amount) ++ " SOL")).

(** The entry [transfer_sol] caches, and the wallet object afterwards. *)
Definition cached_entry (recipient : pyval) (amount : float) (w : world) : tx_entry :=
  {| tx_type := "transfer"; tx_amount := amount; tx_recipient := recipient;
     tx_timestamp := now_isoformat (clock w) |}.

Definition with_history (o : SolanaWallet) (h : list (pyval * tx_entry))
  : SolanaWallet :=
  {| keypair := keypair o; public_key := public_key o; client := client o;
     network_version := network_version o; network := network o;
     tx_history := h |}.

(** A balance below the requested amount: the transfer is refused after the
    balance lookup, and nothing else has happened. *)
Lemma transfer_sol_refused (w : world) (self : nat) (o : SolanaWallet)
    (recipient : pyval) (pk : PublicKey) (amount : float) (requested balance : Z)
    (balance_resp : pyval) (available : float) :
  heap w !! self = Some o ->
  PublicKey_new recipient = Ok pk ->
  py_int_of_float (amount * 1000000000)%float = Ok requested ->
  rpc_reply (rpc_log w) (balance_call o) = Ok balance_resp ->
  reports_balance balance_resp balance ->
  balance < requested ->
  py_float_of_int balance = Ok available ->
  Wallet.transfer_sol self recipient amount w =
  (Raise (insufficient_balance (available / 1e9)%float amount),
   logged (balance_call o) w).
Proof.
  intros Hself Hpk Hreq Hreply Hbal Hlt Hav.
  apply reports_balance_lookups in Hbal as (Hc & r & Hr & Hv).
  unfold Wallet.transfer_sol, try_except, bind, lift, load, call_rpc, raise.
  rewrite Hself, Hpk, Hreq. fold (balance_call o). rewrite Hreply, Hc.
  cbn [negb]. rewrite Hr, Hv. cbn [py_lt_int].
  apply Z.ltb_lt in Hlt. rewrite Hlt.
  cbn [py_truediv_float rbind]. rewrite Hav. reflexivity.
Qed.

(** The instruction builder accepts exactly the 64-bit unsigned amounts. *)
Lemma transfer_in_range (params : TransferParams) :
  0 <= lamports params <= u64_max ->
  transfer params = Ok (SystemTransfer params).
Proof.
  intros [Hlo Hhi]. unfold transfer.
  apply Z.leb_le in Hlo, Hhi. now rewrite Hlo, Hhi.
Qed.

Lemma transfer_out_of_range_raises (params : TransferParams) :
  ~ (0 <= lamports params <= u64_max) ->
  transfer params = Raise (transfer_out_of_range (lamports params)).
Proof.
  intros Hout. unfold transfer.
  destruct (0 <=? lamports params) eqn:Hlo;
    destruct (lamports params <=? u64_max) eqn:Hhi; try reflexivity.
  apply Z.leb_le in Hlo, Hhi. lia.
Qed.

(** A sufficient balance and an amount the instruction builder accepts: the
    transfer is submitted, with exactly the requested number of base
    units, whatever the endpoint then answers. *)
Lemma transfer_sol_submits (w : world) (self : nat) (o : SolanaWallet)
    (recipient : pyval) (pk : PublicKey) (amount : float) (requested balance : Z)
    (balance_resp : pyval) :
  heap w !! self = Some o ->
  PublicKey_new recipient = Ok pk ->
  py_int_of_float (amount * 1000000000)%float = Ok requested ->
  rpc_reply (rpc_log w) (balance_call o) = Ok balance_resp ->
  reports_balance balance_resp balance ->
  requested <= balance ->
  0 <= requested <= u64_max ->
  rpc_log (snd (Wallet.transfer_sol self recipient amount w)) =
  (rpc_log w ++ [balance_call o; transfer_call o pk requested])%list.
Proof.
  intros Hself Hpk Hreq Hreply Hbal Hle Hrange.
  apply reports_balance_lookups in Hbal as (Hc & r & Hr & Hv).
  unfold Wallet.transfer_sol, try_except, bind, lift, load, call_rpc, raise, ret,
    store, datetime_now_isoformat.
  rewrite Hself, Hpk, Hreq. fold (balance_call o). rewrite Hreply, Hc.
  cbn [negb]. rewrite Hr, Hv. cbn [py_lt_int].
  apply Z.ltb_ge in Hle. rewrite Hle.
  rewrite transfer_in_range by exact Hrange.
  unfold Transaction_add, Transaction_new. cbn [app].
  fold (transfer_call o pk requested).
  repeat (first [rewrite Hself | run_step];
          cbn [negb heap rpc_log clock _wallet_instance snd fst]);
    now rewrite <- app_assoc.
Qed.

(** The whole successful run. *)
Lemma transfer_sol_run (w : world) (self : nat) (o : SolanaWallet)
    (recipient : pyval) (pk : PublicKey) (amount : float) (requested balance : Z)
    (balance_resp response : pyval) (sig : string) :
  heap w !! self = Some o ->
  PublicKey_new recipient = Ok pk ->
  py_int_of_float (amount * 1000000000)%float = Ok requested ->
  rpc_reply (rpc_log w) (balance_call o) = Ok balance_resp ->
  reports_balance balance_resp balance ->
  requested <= balance ->
  0 <= requested <= u64_max ->
  rpc_reply (rpc_log w ++ [balance_call o])%list (transfer_call o pk requested)
  = Ok response ->
  reports_signature response sig ->
  Wallet.transfer_sol self recipient amount w =
  (Ok (PStr sig),
   {| heap := <[self := with_history o
                          (pydict_set (PStr sig) (cached_entry recipient amount w)
                             (tx_history o))]> (heap w);
      _wallet_instance := _wallet_instance w;
      rpc_log := (rpc_log w ++ [balance_call o; transfer_call o pk requested])%list;
      clock := S (clock w) |}).
Proof.
  intros Hself Hpk Hreq Hreply Hbal Hle Hrange Hsend Hsig.
  apply reports_balance_lookups in Hbal as (Hc & r & Hr & Hv).
  apply reports_signature_lookups in Hsig as (He & Hres & Hg).
  unfold Wallet.transfer_sol, try_except, bind, lift, load, call_rpc, raise, ret,
    store, datetime_now_isoformat.
  rewrite Hself, Hpk, Hreq. fold (balance_call o). rewrite Hreply, Hc.
  cbn [negb]. rewrite Hr, Hv. cbn [py_lt_int].
  apply Z.ltb_ge in Hle. rewrite Hle.
  rewrite transfer_in_range by exact Hrange.
  unfold Transaction_add, Transaction_new. cbn [app].
  fold (transfer_call o pk requested).
  cbn [heap rpc_log clock _wallet_instance]. rewrite Hsend, He, Hres.
  cbn [negb]. rewrite Hg. cbn [heap rpc_log clock _wallet_instance].
  rewrite Hself. cbn [pydict_setitem py_hashable].
  cbn [heap rpc_log clock _wallet_instance].
  unfold with_history, cached_entry. now rewrite <- app_assoc.
Qed.

(** The error [transfer_sol] re-raises when the instruction builder refuses
    the amount. *)
Definition unbuildable (requested : Z) : exn :=
  Exn ValueError ("Failed to transfer SOL: "
                  ++ exn_str (transfer_out_of_range requested)).

(** A sufficient balance, but an amount outside the 64-bit unsigned range:
    the instruction builder raises, after the balance lookup and before any
    submission. *)
Lemma transfer_sol_unbuildable (w : world) (self : nat) (o : SolanaWallet)
    (recipient : pyval) (pk : PublicKey) (amount : float) (requested balance : Z)
    (balance_resp : pyval) :
  heap w !! self = Some o ->
  PublicKey_new recipient = Ok pk ->
  py_int_of_float (amount * 1000000000)%float = Ok requested ->
  rpc_reply (rpc_log w) (balance_call o) = Ok balance_resp ->
  reports_balance balance_resp balance ->
  requested <= balance ->
  ~ (0 <= requested <= u64_max) ->
  Wallet.transfer_sol self recipient amount w =
  (Raise (unbuildable requested), logged (balance_call o) w).
Proof.
  intros Hself Hpk Hreq Hreply Hbal Hle Hrange.
  apply reports_balance_lookups in Hbal as (Hc & r & Hr & Hv).
  unfold Wallet.transfer_sol, try_except, bind, lift, load, call_rpc, raise.
  rewrite Hself, Hpk, Hreq. fold (balance_call o). rewrite Hreply, Hc.
  cbn [negb]. rewrite Hr, Hv. cbn [py_lt_int].
  apply Z.ltb_ge in Hle. rewrite Hle.
  rewrite transfer_out_of_range_raises by exact Hrange. reflexivity.
Qed.

(** The same refusal, for any balance below the request: only the balance
    lookup has been made. *)
Lemma transfer_sol_refused_log (w : world) (self : nat) (o : SolanaWallet)
    (recipient : pyval) (pk : PublicKey) (amount : float) (requested balance : Z)
    (balance_resp : pyval) :
  heap w !! self = Some o ->
  PublicKey_new recipient = Ok pk ->
  py_int_of_float (amount * 1000000000)%float = Ok requested ->
  rpc_reply (rpc_log w) (balance_call o) = Ok balance_resp ->
  reports_balance balance_resp balance ->
  balance < requested ->
  exists e, Wallet.transfer_sol self recipient amount w
            = (Raise e, logged (balance_call o) w).
Proof.
  intros Hself Hpk Hreq Hreply Hbal Hlt.
  apply reports_balance_lookups in Hbal as (Hc & r & Hr & Hv).
  unfold Wallet.transfer_sol, try_except, bind, lift, load, call_rpc, raise.
  rewrite Hself, Hpk, Hreq. fold (balance_call o). rewrite Hreply, Hc.
  cbn [negb]. rewrite Hr, Hv. cbn [py_lt_int].
  apply Z.ltb_lt in Hlt. rewrite Hlt.
  destruct (py_truediv_float (PInt balance) 1e9); eexists; reflexivity.
Qed.

(** What [get_balance] returns for a reported balance. *)
Lemma get_balance_run (w : world) (self : nat) (o : SolanaWallet)
    (balance_resp : pyval) (balance : Z) :
  heap w !! self = Some o ->
  rpc_reply (rpc_log w) (balance_call o) = Ok balance_resp ->
  reports_balance balance_resp balance ->
  get_balance self w =
  (match py_int_truediv balance 1000000000 with
   | Ok balance_sol => Ok balance_sol
   | Raise e => Raise (Exn ValueError ("Failed to get SOL balance: " ++ exn_str e))
   end, logged (balance_call o) w).
Proof.
  intros Hself Hreply Hbal.
  apply reports_balance_lookups in Hbal as (Hc & r & Hr & Hv).
  unfold get_balance, try_except, bind, lift, load, call_rpc, raise, ret.
  rewrite Hself. fold (balance_call o). rewrite Hreply, Hc.
  cbn [negb]. rewrite Hr, Hv. cbn [py_truediv_int].
  destruct (py_int_truediv balance 1000000000); reflexivity.
Qed.

Lemma submissions_logged (ev : rpc_event) (w : world) :
  submissions (logged ev w) =
  (submissions w ++ if is_submission ev then [ev] else [])%list.
Proof.
  unfold submissions, logged. cbn [rpc_log].
  rewrite List.filter_app. cbn [List.filter]. now destruct (is_submission ev).
Qed.

(** C1. A transfer to a valid recipient of a positive amount whose value in
    base units is within the balance the endpoint reports, and fits the
    unsigned 64-bit field of a transfer instruction (as every value within a
    64-bit balance does), succeeds when the endpoint accepts the submission:
    it returns the signature the endpoint reported, and the wallet's
    transaction cache then holds under that signature an entry with the
    requested amount and recipient.  Every other key of the cache reads as
    before; the cache has grown by exactly one entry when the signature was
    new to it, and has kept its size when the signature was already a key,
    whose older entry is then replaced.  The other wallet objects are
    untouched, and exactly one submission was made. *)
Theorem transfer_sol_succeeds_and_caches (w : world) (self : nat)
    (o : SolanaWallet) (recipient : pyval) (pk : PublicKey) (amount : float)
    (requested balance : Z) (balance_resp response : pyval) (sig : string) :
  heap w !! self = Some o ->
  PublicKey_new recipient = Ok pk ->
  (0 <? amount)%float = true ->
  py_int_of_float (amount * 1000000000)%float = Ok requested ->
  rpc_reply (rpc_log w) (balance_call o) = Ok balance_resp ->
  reports_balance balance_resp balance ->
  requested <= balance ->
  requested <= u64_max ->
  rpc_reply (rpc_log w ++ [balance_call o])%list (transfer_call o pk requested)
  = Ok response ->
  reports_signature response sig ->
  exists (w' : world) (o' : SolanaWallet) (entry : tx_entry),
    Wallet.transfer_sol self recipient amount w = (Ok (PStr sig), w') /\
    heap w' !! self = Some o' /\
    pydict_get (PStr sig) (tx_history o') = Some entry /\
    tx_amount entry = amount /\
    tx_recipient entry = recipient /\
    (forall k : pyval,
       k <> PStr sig -> pydict_get k (tx_history o') = pydict_get k (tx_history o)) /\
    (pydict_get (PStr sig) (tx_history o) = None ->
     length (tx_history o') = S (length (tx_history o))) /\
    (pydict_get (PStr sig) (tx_history o) <> None ->
     length (tx_history o') = length (tx_history o)) /\
    (forall other : nat, other <> self -> heap w' !! other = heap w !! other) /\
    submissions w' = (submissions w ++ [transfer_call o pk requested])%list.
Proof.
  intros Hself Hpk Hpos Hreq Hreply Hbal Hle Hfits Hsend Hsig.
  pose proof (positive_amount_lamports amount requested Hpos Hreq) as Hnonneg.
  pose proof (transfer_sol_run w self o recipient pk amount requested balance
                balance_resp response sig Hself Hpk Hreq Hreply Hbal Hle
                (conj Hnonneg Hfits) Hsend Hsig)
    as Hrun.
  eexists _, _, (cached_entry recipient amount w).
  split; [exact Hrun|]. cbn [heap].
  split; [apply list_lookup_insert_eq; now apply lookup_lt_Some in Hself|].
  cbn [with_history tx_history].
  split; [apply pydict_get_set_eq|].
  split; [reflexivity|]. split; [reflexivity|].
  split; [intros k Hk; now apply pydict_get_set_ne|].
  split; [apply pydict_set_length_fresh|].
  split.
  { destruct (pydict_get (PStr sig) (tx_history o)) as [v0|] eqn:Hget;
      [intros _; now apply pydict_set_length_present with v0 | congruence]. }
  split; [intros other Hne; apply list_lookup_insert_ne; congruence|].
  unfold submissions. cbn [rpc_log].
  rewrite List.filter_app. reflexivity.
Qed.

(** C3. A transfer whose amount in base units exceeds the balance the
    endpoint reports fails with the insufficient-balance error, whose
    message gives the balance and the requested amount in display units
    (SOL); nothing is submitted and no wallet object, hence no transaction
    cache, has changed: the balance lookup is the only call made. *)
Theorem transfer_sol_insufficient_balance (w : world) (self : nat)
    (o : SolanaWallet) (recipient : pyval) (pk : PublicKey) (amount : float)
    (requested balance : Z) (balance_resp : pyval) :
  heap w !! self = Some o ->
  PublicKey_new recipient = Ok pk ->
  py_int_of_float (amount * 1000000000)%float = Ok requested ->
  rpc_reply (rpc_log w) (balance_call o) = Ok balance_resp ->
  reports_balance balance_resp balance ->
  0 <= balance ->
  balance < requested ->
  exists (available : float) (e : exn) (w' : world),
    py_float_of_int balance = Ok available /\
    Wallet.transfer_sol self recipient amount w = (Raise e, w') /\
    exn_cls e = ValueError /\
    exn_str e = "Failed to transfer SOL: Insufficient balance. Available: "
                ++ py_str (PFloat (available / 1e9)%float)
                ++ " SOL, Requested: " ++ py_str (PFloat amount) ++ " SOL" /\
    submissions w' = submissions w /\
    heap w' = heap w /\
    rpc_log w' = (rpc_log w ++ [balance_call o])%list.
Proof.
  intros Hself Hpk Hreq Hreply Hbal Hpos Hlt.
  assert (Hav : py_float_of_int balance
                = Ok (SF2Prim (binary_normalize 53 1024 balance 0 false))).
  { apply py_float_of_int_small. apply py_int_of_float_range in Hreq. lia. }
  eexists _, _, _. split; [exact Hav|].
  split; [eapply transfer_sol_refused; eassumption|].
  split; [reflexivity|]. split; [reflexivity|].
  split; [|split; reflexivity].
  rewrite submissions_logged. cbn. apply app_nil_r.
Qed.

(** C4. One display unit is 1,000,000,000 base units.  [get_balance]
    returns, for every balance the endpoint reports, the quotient of that
    integer by 1,000,000,000 as Python's true division rounds it, which is
    exactly 1.5 for 1,500,000,000 base units (and 0.0 for none, 2.5 for
    2,500,000,000).  An amount of 0.1 converts, by truncating its
    floating-point product with the factor, to exactly 100,000,000 base
    units.  What a transfer then does is decided on integers, the reported
    balance and the converted amount: it is refused with the balance lookup
    as the only call when the balance is below the amount; it is submitted,
    for exactly that many base units, when the amount is at most the
    balance and fits the unsigned 64-bit field of the instruction; and it
    fails at the instruction builder, after the balance lookup and with
    nothing submitted, when the amount is within the balance but negative
    or beyond that field.  The converted amount is the truncated
    floating-point product, which can lie below the decimal value of the
    amount (2.01 converts to 2,009,999,999 base units). *)
Theorem base_unit_conversion_exact (w : world) (self : nat) (o : SolanaWallet)
    (recipient : pyval) (pk : PublicKey) (balance_resp : pyval) (balance : Z) :
  heap w !! self = Some o ->
  PublicKey_new recipient = Ok pk ->
  rpc_reply (rpc_log w) (balance_call o) = Ok balance_resp ->
  reports_balance balance_resp balance ->
  get_balance self w =
  (match py_int_truediv balance 1000000000 with
   | Ok balance_sol => Ok balance_sol
   | Raise e => Raise (Exn ValueError ("Failed to get SOL balance: " ++ exn_str e))
   end, logged (balance_call o) w) /\
  py_int_truediv 1500000000 1000000000 = Ok 1.5%float /\
  py_int_truediv 0 1000000000 = Ok 0%float /\
  py_int_truediv 2500000000 1000000000 = Ok 2.5%float /\
  py_int_of_float (0.1 * 1000000000)%float = Ok 100000000 /\
  (forall (amount : float) (requested : Z),
     py_int_of_float (amount * 1000000000)%float = Ok requested ->
     let w' := snd (Wallet.transfer_sol self recipient amount w) in
     (balance < requested ->
      rpc_log w' = (rpc_log w ++ [balance_call o])%list) /\
     (requested <= balance -> 0 <= requested <= u64_max ->
      rpc_log w' = (rpc_log w ++ [balance_call o; transfer_call o pk requested])%list) /\
     (requested <= balance -> ~ (0 <= requested <= u64_max) ->
      Wallet.transfer_sol self recipient amount w =
      (Raise (unbuildable requested), logged (balance_call o) w))).
Proof.
  intros Hself Hpk Hreply Hbal.
  split; [now apply get_balance_run with balance_resp|].
  split; [vm_compute; reflexivity|].
  split; [vm_compute; reflexivity|].
  split; [vm_compute; reflexivity|].
  split; [vm_compute; reflexivity|].
  intros amount requested Hreq w'. subst w'. split; [|split].
  - intros Hlt.
    destruct (transfer_sol_refused_log w self o recipient pk amount requested
                balance balance_resp Hself Hpk Hreq Hreply Hbal Hlt) as [e ->].
    reflexivity.
  - intros Hle Hrange. eapply transfer_sol_submits; eassumption.
  - intros Hle Hrange. eapply transfer_sol_unbuildable; eassumption.
Qed.

End Transfers.

(** ** The action router and its handlers *)

Import Handlers.

(** The dispatch table of [handle_wallet_action]. *)
Definition wallet_actions : list string :=
  ["wallet.info"; "wallet.balance"; "wallet.transfer"; "wallet.transactions";
   "wallet.token_balance"].

(** A computation that, when it returns, returns a dict. *)
Definition returns_dict (c : M pyval) : Prop :=
  forall (w w' : world) (v : pyval), c w = (Ok v, w') -> exists d, v = PDict d.

Lemma returns_dict_ret (d : list (string * pyval)) : returns_dict (ret (PDict d)).
Proof. intros w w' v [= <- _]. eauto. Qed.

Lemma returns_dict_raise (e : exn) : returns_dict (raise e).
Proof. intros w w' v [=]. Qed.

Lemma returns_dict_bind {A : Type} (c : M A) (k : A -> M pyval) :
  (forall a, returns_dict (k a)) -> returns_dict (bind c k).
Proof.
  intros Hk w w' v. unfold bind. destruct (c w) as [[a|e] w1].
  - apply Hk.
  - intros [=].
Qed.

Ltac returns_dict_steps :=
  repeat first
    [ apply returns_dict_ret
    | apply returns_dict_raise
    | apply returns_dict_bind; intros
    | match goal with
      | |- returns_dict (match ?x with _ => _ end) => destruct x
      | |- returns_dict (if ?x then _ else _) => destruct x
      end ].

Section Router.
Context `{PyRuntime} `{SolanaLib}.

Lemma dispatch_returns_dict (action : string) (params : list (string * pyval)) :
  returns_dict (dispatch action params).
Proof.
  unfold dispatch, get_wallet_info, get_sol_balance, Handlers.transfer_sol,
    get_transactions, Handlers.get_token_balance.
  returns_dict_steps.
Qed.

Lemma dispatch_unknown (action : string) (params : list (string * pyval))
    (w : world) :
  ~ In action wallet_actions ->
  dispatch action params w =
  (Raise (match _wallet_instance w with
          | Some _ => Exn ValueError ("Unknown wallet action: " ++ action)
          | None => not_initialized
          end), w).
Proof.
  intros Hnot. unfold dispatch.
  assert (Hne : forall a, In a wallet_actions -> String.eqb action a = false).
  { intros a Ha. apply String.eqb_neq. intros ->. contradiction. }
  rewrite !Hne by (cbn; tauto).
  unfold bind, get_wallet, read_instance, raise.
  destruct (_wallet_instance w) eqn:Hslot; cbn; rewrite ?Hslot; reflexivity.
Qed.

(** C8. The router returns a result dict for every request, in every
    state: what the dispatched handler returned when it returned, and
    otherwise, whatever was raised below it, the failure result
    [{"error": str(e), "action": action, "success": False}] with the
    request's own action string.  An action outside the dispatch table is
    such a failure: the unknown-action error (or the not-initialized error
    when the registry is empty), with nothing else done. *)
Theorem handle_wallet_action_total (request : MCPRequest) (w : world) :
  (exists (d : list (string * pyval)) (w' : world),
     handle_wallet_action request w = (Ok (PDict d), w')) /\
  (forall (e : exn) (w' : world),
     dispatch (action request) (params_or_empty request) w = (Raise e, w') ->
     handle_wallet_action request w =
     (Ok (PDict [("error", PStr (exn_str e)); ("action", PStr (action request));
                 ("success", PBool false)]), w')) /\
  (forall (v : pyval) (w' : world),
     dispatch (action request) (params_or_empty request) w = (Ok v, w') ->
     handle_wallet_action request w = (Ok v, w')) /\
  (~ In (action request) wallet_actions ->
   exists msg : string,
     handle_wallet_action request w =
     (Ok (PDict [("error", PStr msg); ("action", PStr (action request));
                 ("success", PBool false)]), w) /\
     msg = match _wallet_instance w with
           | Some _ => "Unknown wallet action: " ++ action request
           | None => "Wallet not initialized. Call initialize_wallet first."
           end).
Proof.
  unfold handle_wallet_action, try_except, ret, failure_result.
  split; [|split; [|split]].
  - destruct (dispatch (action request) (params_or_empty request) w)
      as [[v|e] w1] eqn:Hrun.
    + destruct (dispatch_returns_dict _ _ _ _ _ Hrun) as [d ->]. eauto.
    + eauto.
  - intros e w' ->. reflexivity.
  - intros v w' ->. reflexivity.
  - intros Hnot. rewrite (dispatch_unknown _ _ _ Hnot).
    eexists. split; [reflexivity|]. now destruct (_wallet_instance w).
Qed.

(** *** The transfer handler's validation of the amount *)

(** X24. An amount that [float()] refuses as a [ValueError] (a string that is
    not a number) or that converts to a number not above zero is rejected
    with the amount error, before the wallet is looked up: the world is
    unchanged, so nothing is submitted. *)
Lemma transfer_handler_rejects_amount (params : list (string * pyval))
    (recipient raw_amount : pyval) (w : world) :
  dict_lookup "recipient" params = Some recipient ->
  dict_lookup "amount" params = Some raw_amount ->
  (forall (e : exn),
     py_float raw_amount = Raise e -> is_ValueError e = true ->
     Handlers.transfer_sol params w =
     (Raise (Exn ValueError ("Invalid amount value: " ++ py_str raw_amount
                             ++ ". Must be a valid number.")), w)) /\
  (forall (amount : float),
     py_float raw_amount = Ok amount -> (amount <=? 0)%float = true ->
     Handlers.transfer_sol params w =
     (Raise (Exn ValueError "Amount must be greater than 0"), w)).
Proof.
  intros Hr Ha. unfold Handlers.transfer_sol, try_except_ValueError, try_except,
    bind, lift, raise.
  rewrite Hr, Ha. split.
  - intros e -> ->. reflexivity.
  - intros amount -> ->. reflexivity.
Qed.

(** C2 (where the handler departs from it). An amount of [None] (JSON
    null) is not rejected with the amount error: [float()] raises
    [TypeError], which the handler's [except ValueError] lets through.  A
    list or a dict as the amount fares the same.  The world is unchanged:
    nothing is submitted. *)
Theorem transfer_handler_null_amount (recipient : pyval) (w : world) :
  Handlers.transfer_sol [("recipient", recipient); ("amount", PNone)] w =
  (Raise (Exn TypeError
            "float() argument must be a string or a real number, not 'NoneType'"),
   w) /\
  (forall raw_amount : pyval,
     py_hashable raw_amount = false ->
     exists e : exn,
       Handlers.transfer_sol [("recipient", recipient); ("amount", raw_amount)] w
       = (Raise e, w) /\ exn_cls e = TypeError).
Proof.
  split; [reflexivity|].
  intros raw_amount Hraw.
  destruct raw_amount; try discriminate Hraw; eexists; split; reflexivity.
Qed.

(** *** The limit of the transactions handler *)

(** X25. The limit handed on: an int in 1..100 as it is; any other int, a
    string that is not an integer and a missing limit become 10. *)
Lemma requested_limit_clamps (params : list (string * pyval)) :
  (dict_lookup "limit" params = None -> requested_limit params = Ok 10) /\
  (forall (raw : pyval) (n : Z),
     dict_lookup "limit" params = Some raw -> py_int raw = Ok n ->
     requested_limit params = Ok (if (1 <=? n) && (n <=? 100) then n else 10)) /\
  (forall (raw : pyval) (e : exn),
     dict_lookup "limit" params = Some raw -> py_int raw = Raise e ->
     is_ValueError e = true -> requested_limit params = Ok 10).
Proof.
  unfold requested_limit. repeat split.
  - intros ->. reflexivity.
  - intros raw n -> ->. cbn [rbind]. f_equal.
    destruct (n <=? 0) eqn:H0', (n >? 100) eqn:H1', (1 <=? n) eqn:H2',
      (n <=? 100) eqn:H3'; cbn; try reflexivity; lia.
  - intros raw e -> -> ->. reflexivity.
Qed.

(** X26. The handler hands the limit to the wallet, which asks the endpoint
    for that many signatures. *)
Lemma get_transactions_passes_limit (params : list (string * pyval)) (limit : Z)
    (w : world) (self : nat) (o : SolanaWallet) :
  requested_limit params = Ok limit ->
  _wallet_instance w = Some self ->
  heap w !! self = Some o ->
  rpc_log (snd (get_transactions params w)) =
  (rpc_log w ++ [(client o,
                  RpcGetSignaturesForAddress (kp_public_key (keypair o)) limit)])%list.
Proof.
  intros Hlimit Hslot Hself.
  unfold get_transactions, get_recent_transactions, get_wallet, the_object,
    read_instance, try_except, bind, lift, load, call_rpc, raise, ret.
  rewrite Hlimit, Hslot. cbn [_wallet_instance]. rewrite Hslot, Hself.
  cbn [heap rpc_log].
  repeat (first [rewrite Hself | run_step];
          cbn [negb heap rpc_log clock _wallet_instance snd fst]);
    reflexivity.
Qed.

(** C5 (where the handler departs from it). A limit of [None] (JSON null)
    is not replaced by 10: [int()] raises [TypeError], which the handler's
    [except ValueError] lets through, so the handler fails.  A list or a
    dict as the limit fares the same, and an infinite float fails with
    [OverflowError]. *)
Theorem get_transactions_null_limit (w : world) :
  get_transactions [("limit", PNone)] w =
  (Raise (Exn TypeError
            "int() argument must be a string, a bytes-like object or a real number, not 'NoneType'"),
   w) /\
  (forall raw_limit : pyval,
     py_hashable raw_limit = false ->
     exists e : exn,
       get_transactions [("limit", raw_limit)] w = (Raise e, w) /\
       exn_cls e = TypeError) /\
  (exists e : exn,
     get_transactions [("limit", PFloat infinity)] w = (Raise e, w) /\
     exn_cls e = OverflowError).
Proof.
  split; [reflexivity|]. split.
  - intros raw_limit Hraw.
    destruct raw_limit; try discriminate Hraw; eexists; split; reflexivity.
  - eexists. split; reflexivity.
Qed.

End Router.

(** ** The registry under the handlers *)

(** Between two states: the registry slot is the same and no object has
    disappeared. *)
Definition stable (w w' : world) : Prop :=
  _wallet_instance w' = _wallet_instance w /\
  (length (heap w) <= length (heap w'))%nat.

(** A computation that leaves the registry alone, however it ends. *)
Definition keeps_registry {A : Type} (c : M A) : Prop :=
  forall w : world, stable w (snd (c w)).

Lemma stable_refl (w : world) : stable w w.
Proof. split; [reflexivity | lia]. Qed.

Lemma stable_trans (w1 w2 w3 : world) :
  stable w1 w2 -> stable w2 w3 -> stable w1 w3.
Proof. intros [Ha Hb] [Hc Hd]. split; [congruence | lia]. Qed.

Lemma keeps_ret {A : Type} (a : A) : keeps_registry (ret a).
Proof. intros w. apply stable_refl. Qed.

Lemma keeps_raise {A : Type} (e : exn) : keeps_registry (@raise A e).
Proof. intros w. apply stable_refl. Qed.

Lemma keeps_lift {A : Type} (r : result A) : keeps_registry (lift r).
Proof. intros w. apply stable_refl. Qed.

Lemma keeps_read_instance : keeps_registry read_instance.
Proof. intros w. apply stable_refl. Qed.

Lemma keeps_load (self : nat) : keeps_registry (load self).
Proof. intros w. unfold load. destruct (heap w !! self); apply stable_refl. Qed.

Lemma keeps_store (self : nat) (o : SolanaWallet) : keeps_registry (store self o).
Proof.
  intros w. split; cbn; [reflexivity|]. rewrite length_insert. lia.
Qed.

Lemma keeps_call_rpc `{SolanaLib} (url : string) (c : rpc_call) :
  keeps_registry (call_rpc url c).
Proof. intros w. split; cbn; [reflexivity | lia]. Qed.

Lemma keeps_now `{PyRuntime} : keeps_registry datetime_now_isoformat.
Proof. intros w. split; cbn; [reflexivity | lia]. Qed.

Lemma keeps_bind {A B : Type} (c : M A) (k : A -> M B) :
  keeps_registry c -> (forall a, keeps_registry (k a)) ->
  keeps_registry (bind c k).
Proof.
  intros Hc Hk w. unfold bind. specialize (Hc w).
  destruct (c w) as [[a|e] w1]; cbn [snd] in *.
  - eapply stable_trans; [exact Hc | apply Hk].
  - exact Hc.
Qed.

Lemma keeps_try_except {A : Type} (c : M A) (h : exn -> M A) :
  keeps_registry c -> (forall e, keeps_registry (h e)) ->
  keeps_registry (try_except c h).
Proof.
  intros Hc Hh w. unfold try_except. specialize (Hc w).
  destruct (c w) as [[a|e] w1]; cbn [snd] in *.
  - exact Hc.
  - eapply stable_trans; [exact Hc | apply Hh].
Qed.

Ltac keeps_steps :=
  repeat first
    [ apply keeps_ret | apply keeps_raise | apply keeps_lift
    | apply keeps_read_instance | apply keeps_load | apply keeps_store
    | apply keeps_call_rpc | apply keeps_now
    | apply keeps_bind; [|intros]
    | apply keeps_try_except; [|intros]
    | match goal with
      | |- keeps_registry (match ?x with _ => _ end) => destruct x
      | |- keeps_registry (if ?x then _ else _) => destruct x
      end ].

Section RegistryStability.
Context `{PyRuntime} `{SolanaLib}.

Lemma keeps_get_wallet : keeps_registry get_wallet.
Proof. unfold get_wallet. keeps_steps. Qed.

Lemma keeps_get_balance (self : nat) : keeps_registry (get_balance self).
Proof. unfold get_balance. keeps_steps. Qed.

Lemma keeps_transfer_sol (self : nat) (recipient : pyval) (amount : float) :
  keeps_registry (Wallet.transfer_sol self recipient amount).
Proof. unfold Wallet.transfer_sol. keeps_steps. Qed.

Lemma keeps_get_recent_transactions (self : nat) (limit : Z) :
  keeps_registry (get_recent_transactions self limit).
Proof. unfold get_recent_transactions. keeps_steps. Qed.

Lemma keeps_get_token_balance (self : nat) (token_mint : pyval) :
  keeps_registry (Wallet.get_token_balance self token_mint).
Proof. unfold Wallet.get_token_balance. keeps_steps. Qed.

(** Serving a request never empties or replaces the registry, and the
    object it holds stays allocated: initialization is the only writer of
    the slot. *)
Lemma handle_wallet_action_keeps_registry (request : MCPRequest) :
  keeps_registry (handle_wallet_action request).
Proof.
  unfold handle_wallet_action, dispatch, get_wallet_info, get_sol_balance,
    Handlers.transfer_sol, get_transactions, Handlers.get_token_balance,
    the_object, try_except_ValueError.
  keeps_steps;
    first [ apply keeps_get_wallet | apply keeps_get_balance
          | apply keeps_transfer_sol | apply keeps_get_recent_transactions
          | apply keeps_get_token_balance ].
Qed.

(** X23. While requests are served, the registry keeps holding the same
    wallet object, and that object stays allocated. *)
Lemma initialized_stays_initialized (request : MCPRequest) (w : world) (l : nat) :
  _wallet_instance w = Some l -> is_Some (heap w !! l) ->
  let w' := snd (handle_wallet_action request w) in
  _wallet_instance w' = Some l /\ is_Some (heap w' !! l).
Proof.
  intros Hslot Hobj w'.
  destruct (handle_wallet_action_keeps_registry request w) as [Hs Hl].
  fold w' in Hs, Hl. split; [congruence|].
  apply lookup_lt_is_Some. apply lookup_lt_is_Some in Hobj. lia.
Qed.

End RegistryStability.

(** ** Further behaviour of the wallet *)

Section WalletBehaviour.
Context `{PyRuntime} `{SolanaLib}.

(** X1. A transfer that fails, for whatever reason, fails with a
    [ValueError] whose message starts with "Failed to transfer SOL: ", and
    it has written nothing: every wallet object, hence every transaction
    cache, and the registry are as before. *)
Theorem transfer_sol_failure_writes_nothing (w w' : world) (self : nat)
    (recipient : pyval) (amount : float) (e : exn) :
  Wallet.transfer_sol self recipient amount w = (Raise e, w') ->
  heap w' = heap w /\ _wallet_instance w' = _wallet_instance w /\
  exn_cls e = ValueError /\
  exists reason : string, exn_str e = "Failed to transfer SOL: " ++ reason.
Proof.
  unfold Wallet.transfer_sol, try_except, bind, lift, load, call_rpc, raise, ret,
    store, datetime_now_isoformat.
  repeat (run_step; cbn [negb heap rpc_log clock _wallet_instance snd fst]);
    intros [= <- <-]; cbn; eauto.
Qed.

(** X2. A transfer submits at most once, and only what was asked: if a
    submission was made, the recipient was accepted as a public key, the
    endpoint reported a balance that is not below the amount in base units,
    and the one submission is the transfer of exactly that amount from this
    wallet to that recipient. *)
Theorem transfer_sol_submits_only_the_request (w : world) (self : nat)
    (recipient : pyval) (amount : float) :
  let w' := snd (Wallet.transfer_sol self recipient amount w) in
  submissions w' = submissions w \/
  exists (o : SolanaWallet) (pk : PublicKey) (requested : Z)
         (balance_resp r current_balance : pyval),
    heap w !! self = Some o /\
    PublicKey_new recipient = Ok pk /\
    py_int_of_float (amount * 1000000000)%float = Ok requested /\
    rpc_reply (rpc_log w) (balance_call o) = Ok balance_resp /\
    py_getitem balance_resp "result" = Ok r /\
    py_getitem r "value" = Ok current_balance /\
    py_lt_int current_balance requested = Ok false /\
    submissions w' = (submissions w ++ [transfer_call o pk requested])%list.
Proof.
  unfold Wallet.transfer_sol, try_except, bind, lift, load, call_rpc, raise, ret,
    store, datetime_now_isoformat, submissions, Transaction_add, Transaction_new,
    transfer.
  cbn zeta.
  repeat (run_step; cbn [negb heap rpc_log clock _wallet_instance snd fst]);
    rewrite ?List.filter_app; cbn [List.filter is_submission snd];
    rewrite ?app_nil_r;
    first [ left; reflexivity
          | right; eexists _, _, _, _, _, _; repeat split; eassumption ].
Qed.

(** X3. The recipient and the amount are checked before the endpoint is
    contacted: a recipient that is no public key, or an amount whose product
    with the factor is no finite number, fails the transfer with the world
    unchanged, so without any RPC call. *)
Theorem transfer_sol_validates_before_contact (w : world) (self : nat)
    (o : SolanaWallet) (recipient : pyval) (amount : float) :
  heap w !! self = Some o ->
  (forall e0 : exn,
     PublicKey_new recipient = Raise e0 ->
     Wallet.transfer_sol self recipient amount w =
     (Raise (Exn ValueError ("Failed to transfer SOL: " ++ exn_str e0)), w)) /\
  (forall (pk : PublicKey) (e0 : exn),
     PublicKey_new recipient = Ok pk ->
     py_int_of_float (amount * 1000000000)%float = Raise e0 ->
     Wallet.transfer_sol self recipient amount w =
     (Raise (Exn ValueError ("Failed to transfer SOL: " ++ exn_str e0)), w)).
Proof.
  intros Hself.
  unfold Wallet.transfer_sol, try_except, bind, lift, load, raise.
  rewrite Hself. split.
  - intros e0 ->. reflexivity.
  - intros pk e0 -> ->. reflexivity.
Qed.

(** X4. When the endpoint answers the submission with an ["error"], the
    transfer fails with that error in its message, also when the reply
    carries a ["result"] as well; the submission has been made, and no
    cache has changed.  A submission is reached by an amount within the
    reported balance that the instruction builder accepts, one from 0 to
    2^64 - 1 base units. *)
Theorem transfer_sol_rejected_by_endpoint (w : world) (self : nat)
    (o : SolanaWallet) (recipient : pyval) (pk : PublicKey) (amount : float)
    (requested balance : Z) (balance_resp response err : pyval) :
  heap w !! self = Some o ->
  PublicKey_new recipient = Ok pk ->
  py_int_of_float (amount * 1000000000)%float = Ok requested ->
  rpc_reply (rpc_log w) (balance_call o) = Ok balance_resp ->
  reports_balance balance_resp balance ->
  requested <= balance ->
  0 <= requested <= u64_max ->
  rpc_reply (rpc_log w ++ [balance_call o])%list (transfer_call o pk requested)
  = Ok response ->
  py_contains "error" response = Ok true ->
  py_getitem response "error" = Ok err ->
  exists w' : world,
    Wallet.transfer_sol self recipient amount w =
    (Raise (Exn ValueError ("Failed to transfer SOL: Transfer failed: "
                            ++ py_str err)), w') /\
    heap w' = heap w /\
    submissions w' = (submissions w ++ [transfer_call o pk requested])%list.
Proof.
  intros Hself Hpk Hreq Hreply Hbal Hle Hrange Hsend Herr Hget.
  apply reports_balance_lookups in Hbal as (Hc & r & Hr & Hv).
  unfold Wallet.transfer_sol, try_except, bind, lift, load, call_rpc, raise.
  rewrite Hself, Hpk, Hreq. fold (balance_call o). rewrite Hreply, Hc.
  cbn [negb]. rewrite Hr, Hv. cbn [py_lt_int].
  apply Z.ltb_ge in Hle. rewrite Hle.
  rewrite transfer_in_range by exact Hrange.
  unfold Transaction_add, Transaction_new. cbn [app].
  fold (transfer_call o pk requested).
  cbn [heap rpc_log clock _wallet_instance]. rewrite Hsend, Herr, Hget.
  eexists. split; [reflexivity|]. split; [reflexivity|].
  unfold submissions. cbn [rpc_log]. rewrite !List.filter_app. cbn.
  now rewrite app_nil_r.
Qed.

(** X5. Reading the balance changes nothing but the RPC log, to which it
    adds at most the one balance lookup; it never submits anything, and
    whatever goes wrong surfaces as a [ValueError] whose message starts
    with "Failed to get SOL balance: ". *)
Theorem get_balance_reads_only (w : world) (self : nat) :
  let run := get_balance self w in
  heap (snd run) = heap w /\
  _wallet_instance (snd run) = _wallet_instance w /\
  submissions (snd run) = submissions w /\
  (rpc_log (snd run) = rpc_log w \/
   exists o, heap w !! self = Some o /\
             rpc_log (snd run) = (rpc_log w ++ [balance_call o])%list) /\
  (forall e : exn,
     fst run = Raise e ->
     exn_cls e = ValueError /\
     exists reason : string, exn_str e = "Failed to get SOL balance: " ++ reason).
Proof.
  unfold get_balance, try_except, bind, lift, load, call_rpc, raise, ret,
    submissions, balance_call.
  cbn zeta.
  repeat (run_step; cbn [negb heap rpc_log clock _wallet_instance snd fst]);
    rewrite ?List.filter_app; cbn [List.filter is_submission snd];
    rewrite ?app_nil_r;
    (split; [reflexivity|]; split; [reflexivity|]; split; [reflexivity|];
     split;
     [ first [ left; reflexivity | right; eexists; split; reflexivity ]
     | intros e0 He0;
       first [ discriminate He0 | injection He0 as <-; cbn; eauto ] ]).
Qed.

(** The listing request a wallet object makes. *)
Definition signatures_call (o : SolanaWallet) (limit : Z) : rpc_event :=
  (client o, RpcGetSignaturesForAddress (kp_public_key (keypair o)) limit).

(** A remote summary: a dict with a signature, a slot and an error field. *)
Definition summary (tx : pyval) : Prop :=
  exists d, tx = PDict d /\ dict_lookup "signature" d <> None /\
            dict_lookup "slot" d <> None /\ dict_lookup "err" d <> None.

(** The normalized entry of a remote summary: its signature, slot and
    error field, its memo or [None], and its block time if it has one. *)
Definition normalized (tx entry : pyval) : Prop :=
  exists d signature slot err,
    tx = PDict d /\
    dict_lookup "signature" d = Some signature /\
    dict_lookup "slot" d = Some slot /\
    dict_lookup "err" d = Some err /\
    entry = PDict ([("signature", signature); ("slot", slot); ("err", err);
                    ("memo", match dict_lookup "memo" d with
                             | Some memo => memo
                             | None => PNone
                             end)]
                   ++ match dict_lookup "blockTime" d with
                      | Some block_time => [("block_time", block_time)]
                      | None => []
                      end)%list.

Lemma format_transaction_normalizes (tx entry : pyval) :
  format_transaction tx = Ok entry -> normalized tx entry.
Proof.
  unfold format_transaction, normalized.
  destruct tx as [| | | | |l|d]; try discriminate.
  cbn [py_getitem py_dict_get py_contains rbind].
  destruct (dict_lookup "signature" d) as [signature|] eqn:Hsig; [|discriminate].
  destruct (dict_lookup "slot" d) as [slot|] eqn:Hslot; [|discriminate].
  destruct (dict_lookup "err" d) as [err|] eqn:Herr; [|discriminate].
  cbn [rbind].
  destruct (dict_lookup "blockTime" d) as [block_time|] eqn:Htime;
    cbn [rbind]; intros [= <-]; exists d, signature, slot, err;
    rewrite Htime; repeat split; assumption.
Qed.

Lemma format_transaction_of_summary (tx : pyval) :
  summary tx -> exists entry, format_transaction tx = Ok entry.
Proof.
  intros (d & -> & Hsig & Hslot & Herr). unfold format_transaction.
  cbn [py_getitem py_dict_get py_contains rbind].
  destruct (dict_lookup "signature" d); [|contradiction].
  destruct (dict_lookup "slot" d); [|contradiction].
  destruct (dict_lookup "err" d); [|contradiction].
  cbn [rbind]. destruct (dict_lookup "blockTime" d); cbn [rbind]; eauto.
Qed.

Lemma format_transactions_normalizes (txs out : list pyval) :
  format_transactions txs = Ok out -> Forall2 normalized txs out.
Proof.
  revert out. induction txs as [|tx txs IH]; intros out; cbn [format_transactions].
  - intros [= <-]. constructor.
  - destruct (format_transaction tx) as [entry|e] eqn:Htx; [|discriminate].
    cbn [rbind].
    destruct (format_transactions txs) as [rest|e]; [|discriminate].
    cbn [rbind]. intros [= <-]. constructor.
    + now apply format_transaction_normalizes.
    + now apply IH.
Qed.

Lemma format_transactions_of_summaries (txs : list pyval) :
  Forall summary txs -> exists out, format_transactions txs = Ok out.
Proof.
  induction 1 as [|tx txs Htx _ IH]; cbn [format_transactions]; [eauto|].
  destruct (format_transaction_of_summary tx Htx) as [entry ->].
  destruct IH as [rest ->]. cbn [rbind]. eauto.
Qed.

(** X6. The listing mirrors the endpoint's summaries one for one and in
    order: whenever it returns, every remote summary has become an entry
    with the same signature, slot and error field, its memo or [None], and
    its block time if it had one, and only the listing request was made.
    It returns whenever every element of the reply is a summary; a single
    element that is not fails the whole listing. *)
Theorem get_recent_transactions_normalizes (w : world) (self : nat)
    (o : SolanaWallet) (limit : Z) (d : list (string * pyval))
    (txs : list pyval) :
  heap w !! self = Some o ->
  rpc_reply (rpc_log w) (signatures_call o limit) = Ok (PDict d) ->
  dict_lookup "error" d = None ->
  dict_lookup "result" d = Some (PList txs) ->
  (forall (out : list pyval) (w' : world),
     get_recent_transactions self limit w = (Ok out, w') ->
     Forall2 normalized txs out /\ w' = logged (signatures_call o limit) w) /\
  (Forall summary txs ->
   exists out : list pyval,
     get_recent_transactions self limit w
     = (Ok out, logged (signatures_call o limit) w)).
Proof.
  intros Hself Hreply Herr Hres.
  assert (Hrun : get_recent_transactions self limit w =
                 (match format_transactions txs with
                  | Ok out => Ok out
                  | Raise e => Raise (Exn ValueError
                                        ("Failed to get recent transactions: "
                                         ++ exn_str e))
                  end, logged (signatures_call o limit) w)).
  { unfold get_recent_transactions, try_except, bind, lift, load, call_rpc, raise.
    rewrite Hself. fold (signatures_call o limit). rewrite Hreply.
    cbn [py_contains py_getitem]. rewrite Herr, Hres. cbn [negb py_iter].
    destruct (format_transactions txs); reflexivity. }
  rewrite Hrun. split.
  - intros out w'. destruct (format_transactions txs) as [out'|e] eqn:Hfmt;
      intros [= <- <-]. split; [now apply format_transactions_normalizes | reflexivity].
  - intros Hall. destruct (format_transactions_of_summaries txs Hall) as [out ->].
    eauto.
Qed.

(** The lookup of a transaction a wallet object makes. *)
Definition transaction_call (o : SolanaWallet) (signature : pyval) : rpc_event :=
  (client o, RpcGetTransaction signature).

(** X7. Looking a transaction up makes the one lookup and returns the
    reply's ["result"] as it is.  A reply with an ["error"] fails, the
    error's text prefixed twice (the method's own raise is re-raised by its
    handler); a reply with neither fails as an unexpected format. *)
Theorem get_transaction_returns_result (w : world) (self : nat)
    (o : SolanaWallet) (signature : pyval) (d : list (string * pyval)) :
  heap w !! self = Some o ->
  rpc_reply (rpc_log w) (transaction_call o signature) = Ok (PDict d) ->
  get_transaction self signature w =
  (match dict_lookup "error" d, dict_lookup "result" d with
   | Some err, _ =>
       Raise (Exn ValueError ("Failed to get transaction: "
                              ++ "Failed to get transaction: " ++ py_str err))
   | None, Some v => Ok v
   | None, None =>
       Raise (Exn ValueError ("Failed to get transaction: "
                              ++ "Unexpected response format: " ++ py_str (PDict d)))
   end, logged (transaction_call o signature) w).
Proof.
  intros Hself Hreply.
  unfold get_transaction, try_except, bind, lift, load, call_rpc, raise.
  rewrite Hself. fold (transaction_call o signature). rewrite Hreply.
  cbn [py_contains py_getitem].
  destruct (dict_lookup "error" d); [reflexivity|].
  destruct (dict_lookup "result" d); reflexivity.
Qed.

(** X8. A wallet built from a key that decodes, against an endpoint whose
    version reply has a ["result"] with a ["solana-core"] entry, starts with
    an empty transaction cache, the address of the key, the network named
    by the URL and the whole reply as its version; the version request is
    the only call made. *)
Theorem SolanaWallet_init_builds (private_key rpc_url : string) (w : world)
    (kp : Keypair) (d : list (string * pyval)) (r version : pyval) :
  Keypair_from_secret_key private_key = Ok kp ->
  rpc_reply (rpc_log w) (rpc_url, RpcGetVersion) = Ok (PDict d) ->
  dict_lookup "result" d = Some r ->
  py_getitem r "solana-core" = Ok version ->
  SolanaWallet_init private_key rpc_url w =
  (Ok {| keypair := kp; public_key := pk_base58 (kp_public_key kp);
         client := rpc_url; network_version := PDict d;
         network := _get_network_name rpc_url; tx_history := [] |},
   logged (rpc_url, RpcGetVersion) w).
Proof.
  intros Hk Hreply Hres Hcore.
  unfold SolanaWallet_init, try_except, bind, lift, call_rpc, raise, ret.
  rewrite Hk. cbn zeta. rewrite Hreply. cbn [py_contains py_getitem].
  rewrite Hres. cbn [negb]. rewrite Hcore. reflexivity.
Qed.

(** X9. A version reply that has a ["result"] without a ["solana-core"]
    entry still fails the construction: the entry is read for the log line
    inside the constructor's [try] block. *)
Theorem SolanaWallet_init_needs_solana_core (private_key rpc_url : string)
    (w : world) (kp : Keypair) (d : list (string * pyval)) (r : pyval) (e : exn) :
  Keypair_from_secret_key private_key = Ok kp ->
  rpc_reply (rpc_log w) (rpc_url, RpcGetVersion) = Ok (PDict d) ->
  dict_lookup "result" d = Some r ->
  py_getitem r "solana-core" = Raise e ->
  SolanaWallet_init private_key rpc_url w =
  (Raise (Exn ValueError ("Failed to initialize Solana wallet: " ++ exn_str e)),
   logged (rpc_url, RpcGetVersion) w).
Proof.
  intros Hk Hreply Hres Hcore.
  unfold SolanaWallet_init, try_except, bind, lift, call_rpc, raise, ret.
  rewrite Hk. cbn zeta. rewrite Hreply. cbn [py_contains py_getitem].
  rewrite Hres. cbn [negb]. rewrite Hcore. reflexivity.
Qed.

End WalletBehaviour.

(** ** Relations every step of a computation keeps *)

Section Preservation.
Variable R : world -> world -> Prop.
Hypothesis R_refl : forall w, R w w.
Hypothesis R_trans : forall w1 w2 w3, R w1 w2 -> R w2 w3 -> R w1 w3.

(** The final state of [c] is [R]-related to its initial state, however
    [c] ends. *)
Definition preserves {A : Type} (c : M A) : Prop :=
  forall w : world, R w (snd (c w)).

Lemma preserves_ret {A : Type} (a : A) : preserves (ret a).
Proof. intros w. apply R_refl. Qed.

Lemma preserves_raise {A : Type} (e : exn) : preserves (@raise A e).
Proof. intros w. apply R_refl. Qed.

Lemma preserves_lift {A : Type} (r : result A) : preserves (lift r).
Proof. intros w. apply R_refl. Qed.

Lemma preserves_read_instance : preserves read_instance.
Proof. intros w. apply R_refl. Qed.

Lemma preserves_load (self : nat) : preserves (load self).
Proof. intros w. unfold load. destruct (heap w !! self); apply R_refl. Qed.

Lemma preserves_bind {A B : Type} (c : M A) (k : A -> M B) :
  preserves c -> (forall a, preserves (k a)) -> preserves (bind c k).
Proof.
  intros Hc Hk w. unfold bind. specialize (Hc w).
  destruct (c w) as [[a|e] w1]; cbn [snd] in *.
  - eapply R_trans; [exact Hc | apply Hk].
  - exact Hc.
Qed.

(** The same, remembering what a pure step returned. *)
Lemma preserves_bind_lift {A B : Type} (r : result A) (k : A -> M B) :
  (forall a, r = Ok a -> preserves (k a)) -> preserves (bind (lift r) k).
Proof.
  intros Hk w. unfold bind, lift. destruct r as [a|e]; cbn [snd].
  - now apply Hk.
  - apply R_refl.
Qed.

Lemma preserves_try_except {A : Type} (c : M A) (h : exn -> M A) :
  preserves c -> (forall e, preserves (h e)) -> preserves (try_except c h).
Proof.
  intros Hc Hh w. unfold try_except. specialize (Hc w).
  destruct (c w) as [[a|e] w1]; cbn [snd] in *.
  - exact Hc.
  - eapply R_trans; [exact Hc | apply Hh].
Qed.

End Preservation.

(** Steps through a computation built from the combinators, leaving the
    calls of RPC clients and of the wallet's methods to the caller. *)
Ltac preserves_steps Hrefl Htrans :=
  repeat first
    [ apply (preserves_ret _ Hrefl) | apply (preserves_raise _ Hrefl)
    | apply (preserves_lift _ Hrefl) | apply (preserves_read_instance _ Hrefl)
    | apply (preserves_load _ Hrefl)
    | apply (preserves_bind _ Htrans); [|intros]
    | apply (preserves_try_except _ Htrans); [|intros]
    | match goal with
      | |- preserves _ (match ?x with _ => _ end) => destruct x
      | |- preserves _ (if ?x then _ else _) => destruct x
      end ].

(** Nothing is written and nothing is submitted: the wallet objects and
    the registry are the same, and so are the submissions made. *)
Definition quiet (w w' : world) : Prop :=
  heap w' = heap w /\ _wallet_instance w' = _wallet_instance w /\
  submissions w' = submissions w.

Lemma quiet_refl (w : world) : quiet w w.
Proof. repeat split. Qed.

Lemma quiet_trans (w1 w2 w3 : world) : quiet w1 w2 -> quiet w2 w3 -> quiet w1 w3.
Proof. intros (Ha & Hb & Hc) (Hd & He & Hf). repeat split; congruence. Qed.

(** The RPC log has grown by calls that all satisfy [P]. *)
Definition log_grows_by (P : rpc_event -> Prop) (w w' : world) : Prop :=
  exists l, rpc_log w' = (rpc_log w ++ l)%list /\ Forall P l.

Lemma log_grows_by_refl (P : rpc_event -> Prop) (w : world) : log_grows_by P w w.
Proof. exists []. split; [now rewrite app_nil_r | constructor]. Qed.

Lemma log_grows_by_trans (P : rpc_event -> Prop) (w1 w2 w3 : world) :
  log_grows_by P w1 w2 -> log_grows_by P w2 w3 -> log_grows_by P w1 w3.
Proof.
  intros (l1 & H1 & F1) (l2 & H2 & F2). exists (l1 ++ l2)%list. split.
  - now rewrite H2, H1, app_assoc.
  - now apply Forall_app.
Qed.

(** A listing request asks for between 1 and 100 signatures. *)
Definition limit_in_range (ev : rpc_event) : Prop :=
  match snd ev with
  | RpcGetSignaturesForAddress _ limit => 1 <= limit <= 100
  | _ => True
  end.

(** ** Further behaviour of the router and its handlers *)

Section HandlerBehaviour.
Context `{PyRuntime} `{SolanaLib}.

Lemma quiet_call_rpc (url : string) (c : rpc_call) :
  is_submission (url, c) = false -> preserves quiet (call_rpc url c).
Proof.
  intros Hc w. unfold call_rpc, quiet, submissions. cbn.
  rewrite List.filter_app. cbn [List.filter]. rewrite Hc.
  now rewrite app_nil_r.
Qed.

Ltac quiet_steps :=
  preserves_steps quiet_refl quiet_trans;
  try (apply quiet_call_rpc; reflexivity).

Lemma quiet_get_wallet : preserves quiet get_wallet.
Proof. unfold get_wallet. quiet_steps. Qed.

Lemma quiet_get_balance (self : nat) : preserves quiet (get_balance self).
Proof. unfold get_balance. quiet_steps. Qed.

Lemma quiet_get_recent_transactions (self : nat) (limit : Z) :
  preserves quiet (get_recent_transactions self limit).
Proof. unfold get_recent_transactions. quiet_steps. Qed.

Lemma quiet_get_token_balance (self : nat) (token_mint : pyval) :
  preserves quiet (Wallet.get_token_balance self token_mint).
Proof. unfold Wallet.get_token_balance. quiet_steps. Qed.

(** X10. Only [wallet.transfer] writes or submits: serving a request for
    any other action leaves every wallet object, hence every transaction
    cache, and the registry as they were, and submits nothing. *)
Theorem only_transfer_writes (request : MCPRequest) (w : world) :
  action request <> "wallet.transfer" ->
  let w' := snd (handle_wallet_action request w) in
  heap w' = heap w /\ _wallet_instance w' = _wallet_instance w /\
  submissions w' = submissions w.
Proof.
  intros Hne. apply String.eqb_neq in Hne.
  assert (Hq : preserves quiet (handle_wallet_action request)).
  { unfold handle_wallet_action, dispatch. rewrite Hne.
    unfold get_wallet_info, get_sol_balance, get_transactions,
      Handlers.get_token_balance, the_object.
    quiet_steps;
      first [ apply quiet_get_wallet | apply quiet_get_balance
            | apply quiet_get_recent_transactions
            | apply quiet_get_token_balance ]. }
  exact (Hq w).
Qed.

(** X11. With an empty registry every request, whatever its action and
    parameters, is answered with the not-initialized failure, and nothing
    else happens: no call is made and the world is unchanged. *)
Theorem empty_registry_rejects_every_request (request : MCPRequest) (w : world) :
  _wallet_instance w = None ->
  handle_wallet_action request w =
  (Ok (PDict [("error", PStr "Wallet not initialized. Call initialize_wallet first.");
              ("action", PStr (action request)); ("success", PBool false)]), w).
Proof.
  intros Hnone.
  unfold handle_wallet_action, dispatch, try_except, bind.
  rewrite (get_wallet_unset w Hnone). reflexivity.
Qed.

(** X12. A request that lacks a required parameter is answered with a
    failure naming the parameter, before anything else is looked at:
    [recipient] is asked for before [amount] by [wallet.transfer], and
    [token_mint] by [wallet.token_balance]; the world is unchanged. *)
Theorem missing_parameter_is_named (request : MCPRequest) (w : world) (l : nat) :
  _wallet_instance w = Some l ->
  let failure (msg : string) :=
    (Ok (PDict [("error", PStr msg); ("action", PStr (action request));
                ("success", PBool false)]), w) in
  (action request = "wallet.transfer" ->
   dict_lookup "recipient" (params_or_empty request) = None ->
   handle_wallet_action request w = failure "Missing required parameter: recipient") /\
  (action request = "wallet.transfer" ->
   dict_lookup "recipient" (params_or_empty request) <> None ->
   dict_lookup "amount" (params_or_empty request) = None ->
   handle_wallet_action request w = failure "Missing required parameter: amount") /\
  (action request = "wallet.token_balance" ->
   dict_lookup "token_mint" (params_or_empty request) = None ->
   handle_wallet_action request w = failure "Missing required parameter: token_mint").
Proof.
  intros Hslot failure. subst failure.
  unfold handle_wallet_action, dispatch, try_except, bind.
  rewrite (get_wallet_set w l Hslot).
  split; [|split].
  - intros -> Hr. cbn [String.eqb Ascii.eqb Bool.eqb].
    unfold Handlers.transfer_sol. rewrite Hr. reflexivity.
  - intros -> Hr Ha. cbn [String.eqb Ascii.eqb Bool.eqb].
    unfold Handlers.transfer_sol.
    destruct (dict_lookup "recipient" (params_or_empty request)); [|contradiction].
    rewrite Ha. reflexivity.
  - intros -> Hm. cbn [String.eqb Ascii.eqb Bool.eqb].
    unfold Handlers.get_token_balance. rewrite Hm. reflexivity.
Qed.

(** X13. The token balance is a placeholder: for every mint the answer is a
    zero balance with zero decimals under the wallet's address, and the
    endpoint is not contacted: the world is unchanged. *)
Theorem token_balance_is_a_placeholder (request : MCPRequest) (w : world)
    (self : nat) (o : SolanaWallet) (token_mint : pyval) :
  _wallet_instance w = Some self ->
  heap w !! self = Some o ->
  action request = "wallet.token_balance" ->
  dict_lookup "token_mint" (params_or_empty request) = Some token_mint ->
  handle_wallet_action request w =
  (Ok (PDict [("token_mint", token_mint); ("balance", PInt 0);
              ("raw_balance", PStr "0"); ("decimals", PInt 0);
              ("address", PStr (public_key o))]), w).
Proof.
  intros Hslot Hself Hact Hmint.
  unfold handle_wallet_action, dispatch, try_except, bind.
  rewrite (get_wallet_set w self Hslot), Hact. cbn [String.eqb Ascii.eqb Bool.eqb].
  unfold Handlers.get_token_balance, Wallet.get_token_balance, the_object,
    try_except, bind, lift, load, ret.
  rewrite Hmint, (get_wallet_set w self Hslot), Hself. reflexivity.
Qed.

(** The limit the handler computes lies between 1 and 100. *)
Lemma requested_limit_in_range (params : list (string * pyval)) (limit : Z) :
  requested_limit params = Ok limit -> 1 <= limit <= 100.
Proof.
  unfold requested_limit.
  destruct (py_int _) as [n|e]; [|destruct (is_ValueError e)];
    cbn [rbind]; try discriminate; intros [= <-].
  - destruct (n <=? 0) eqn:Hlo, (n >? 100) eqn:Hhi; cbn [orb]; lia.
  - cbn. lia.
Qed.

Lemma grows_call_rpc (P : rpc_event -> Prop) (url : string) (c : rpc_call) :
  P (url, c) -> preserves (log_grows_by P) (call_rpc url c).
Proof.
  intros Hp w. exists [(url, c)]. split; [reflexivity | now constructor].
Qed.

Lemma grows_store (P : rpc_event -> Prop) (self : nat) (o : SolanaWallet) :
  preserves (log_grows_by P) (store self o).
Proof. intros w. exists []. split; [cbn; now rewrite app_nil_r | constructor]. Qed.

Lemma grows_now (P : rpc_event -> Prop) : preserves (log_grows_by P) datetime_now_isoformat.
Proof. intros w. exists []. split; [cbn; now rewrite app_nil_r | constructor]. Qed.

Ltac grows_steps :=
  preserves_steps (log_grows_by_refl limit_in_range)
                  (log_grows_by_trans limit_in_range);
  try first [ apply grows_store | apply grows_now
            | apply grows_call_rpc; first [ exact I | assumption ] ].

Lemma grows_get_wallet : preserves (log_grows_by limit_in_range) get_wallet.
Proof. unfold get_wallet. grows_steps. Qed.

Lemma grows_get_balance (self : nat) :
  preserves (log_grows_by limit_in_range) (get_balance self).
Proof. unfold get_balance. grows_steps. Qed.

Lemma grows_transfer_sol (self : nat) (recipient : pyval) (amount : float) :
  preserves (log_grows_by limit_in_range) (Wallet.transfer_sol self recipient amount).
Proof. unfold Wallet.transfer_sol. grows_steps. Qed.

Lemma grows_get_token_balance (self : nat) (token_mint : pyval) :
  preserves (log_grows_by limit_in_range) (Wallet.get_token_balance self token_mint).
Proof. unfold Wallet.get_token_balance. grows_steps. Qed.

Lemma grows_get_recent_transactions (self : nat) (limit : Z) :
  1 <= limit <= 100 ->
  preserves (log_grows_by limit_in_range) (get_recent_transactions self limit).
Proof.
  intros Hlimit. unfold get_recent_transactions. grows_steps.
Qed.

Lemma grows_get_transactions (params : list (string * pyval)) :
  preserves (log_grows_by limit_in_range) (get_transactions params).
Proof.
  unfold get_transactions, the_object.
  apply (preserves_bind_lift _ (log_grows_by_refl limit_in_range)).
  intros limit Hlimit%requested_limit_in_range. grows_steps.
Qed.

(** X14. Whatever limit a request carries, every listing request made to
    an endpoint while serving it asks for between 1 and 100 signatures. *)
Theorem listing_limit_always_in_range (request : MCPRequest) (w : world) :
  exists calls : list rpc_event,
    rpc_log (snd (handle_wallet_action request w)) = (rpc_log w ++ calls)%list /\
    Forall limit_in_range calls.
Proof.
  assert (Hg : preserves (log_grows_by limit_in_range) (handle_wallet_action request)).
  { unfold handle_wallet_action, dispatch.
    apply (preserves_try_except _ (log_grows_by_trans limit_in_range));
      [|intros; apply (preserves_ret _ (log_grows_by_refl limit_in_range))].
    apply (preserves_bind _ (log_grows_by_trans limit_in_range));
      [apply grows_get_wallet | intros wallet].
    repeat match goal with
           | |- preserves _ (if ?x then _ else _) => destruct x
           end;
      first [ apply grows_get_transactions
            | unfold get_wallet_info, get_sol_balance, Handlers.transfer_sol,
                Handlers.get_token_balance, the_object, try_except_ValueError;
              grows_steps ]. }
  exact (Hg w).
Qed.

(** X15. A transfer request that passes every check, the handler's, the
    balance check and the instruction builder's (an amount of at most
    2^64 - 1 base units; the handler has refused the amounts that are not
    above zero), is answered with the success result: the signature the
    endpoint reported, the amount and the recipient as requested, and the
    explorer link of that signature on the wallet's network. *)
Theorem transfer_request_succeeds (request : MCPRequest) (w : world) (self : nat)
    (o : SolanaWallet) (recipient raw_amount : pyval) (pk : PublicKey)
    (amount : float) (requested balance : Z) (balance_resp response : pyval)
    (sig : string) :
  action request = "wallet.transfer" ->
  dict_lookup "recipient" (params_or_empty request) = Some recipient ->
  dict_lookup "amount" (params_or_empty request) = Some raw_amount ->
  py_float raw_amount = Ok amount ->
  (amount <=? 0)%float = false ->
  _wallet_instance w = Some self ->
  heap w !! self = Some o ->
  PublicKey_new recipient = Ok pk ->
  py_int_of_float (amount * 1000000000)%float = Ok requested ->
  rpc_reply (rpc_log w) (balance_call o) = Ok balance_resp ->
  reports_balance balance_resp balance ->
  requested <= balance ->
  requested <= u64_max ->
  rpc_reply (rpc_log w ++ [balance_call o])%list (transfer_call o pk requested)
  = Ok response ->
  reports_signature response sig ->
  fst (handle_wallet_action request w) =
  Ok (PDict [("success", PBool true); ("signature", PStr sig);
             ("amount", PFloat amount); ("recipient", recipient);
             ("explorer_url",
               PStr ("https://explorer.solana.com/tx/" ++ sig ++ "?cluster="
                     ++ network o))]).
Proof.
  intros Hact Hrec Hamt Hfloat Hpos Hslot Hself Hpk Hreq Hreply Hbal Hle Hfits
    Hsend Hsig.
  pose proof (accepted_amount_lamports amount requested Hpos Hreq) as Hnonneg.
  pose proof (transfer_sol_run w self o recipient pk amount requested balance
                balance_resp response sig Hself Hpk Hreq Hreply Hbal Hle
                (conj Hnonneg Hfits) Hsend Hsig)
    as Hrun.
  unfold handle_wallet_action, dispatch, try_except, bind.
  rewrite (get_wallet_set w self Hslot), Hact. cbn [String.eqb Ascii.eqb Bool.eqb].
  unfold Handlers.transfer_sol, try_except_ValueError, try_except, bind, lift,
    the_object, load, ret.
  rewrite Hrec, Hamt, Hfloat, Hpos, (get_wallet_set w self Hslot), Hrun.
  cbn [heap]. rewrite list_lookup_insert_eq by (now apply lookup_lt_Some in Hself).
  reflexivity.
Qed.

End HandlerBehaviour.

(** ** The views and the start of the application *)

Lemma substring_app_first (a b : string) :
  String.substring 0 (String.length a) (a ++ b) = a.
Proof.
  induction a as [|c a IH]; cbn.
  - now destruct b.
  - now rewrite IH.
Qed.

Lemma substring_app_skip (a b : string) (m : nat) :
  String.substring (String.length a) m (a ++ b) = String.substring 0 m b.
Proof. induction a as [|c a IH]; cbn; [reflexivity | exact IH]. Qed.

Lemma string_length_app (a b : string) :
  String.length (a ++ b) = (String.length a + String.length b)%nat.
Proof. induction a as [|c a IH]; cbn; [reflexivity | now rewrite IH]. Qed.

Lemma string_app_assoc (a b c : string) : (a ++ b) ++ c = a ++ b ++ c.
Proof. induction a as [|x a IH]; cbn; [reflexivity | now rewrite IH]. Qed.

Lemma substring_all (s : string) : String.substring 0 (String.length s) s = s.
Proof. induction s as [|c s IH]; cbn; [reflexivity | now rewrite IH]. Qed.

Lemma substring_beyond (s : string) (n : nat) :
  (String.length s <= n)%nat -> String.substring 0 n s = s.
Proof.
  revert n. induction s as [|c s IH]; intros n Hn; cbn in *.
  - now destruct n.
  - destruct n as [|n]; [lia|]. cbn. rewrite IH by lia. reflexivity.
Qed.

Import Routes App.

Section ViewBehaviour.
Context `{PyRuntime} `{SolanaLib} `{WebLib}.

Lemma handle_wallet_action_returns (request : MCPRequest) (w : world) :
  exists (v : pyval) (w' : world), handle_wallet_action request w = (Ok v, w').
Proof.
  unfold handle_wallet_action, try_except, ret.
  destruct (dispatch _ _ w) as [[v|e] w1]; eauto.
Qed.

(** X16. The query view answers every request: it never raises, and its
    status is 200, 400 or 500.  A request answered with 400 has changed
    nothing: it was turned away before the router ran. *)
Theorem mcp_query_answers_every_request (get_json : result pyval) (w : world) :
  exists (resp : http_response) (w' : world),
    mcp_query get_json w = (Ok resp, w') /\
    (status_code resp = 200 \/ status_code resp = 400 \/ status_code resp = 500) /\
    (status_code resp = 400 -> w' = w).
Proof.
  unfold mcp_query, try_except, bind, lift, ret.
  destruct get_json as [data|e]; [|eexists _, _; cbn; split; [reflexivity|]; split; [tauto | discriminate]].
  destruct (py_truthy data); cbn [negb];
    [|eexists _, _; cbn; split; [reflexivity|]; tauto].
  destruct (rbind (py_kwargs MCPRequest_name data) MCPRequest_new) as [request|e];
    [|eexists _, _; cbn; split; [reflexivity|]; tauto].
  destruct (String.prefix "wallet." (action request));
    [|eexists _, _; cbn; split; [reflexivity|]; tauto].
  destruct (handle_wallet_action_returns request w) as (v & w1 & ->).
  destruct (MCPResponse_dict (id request) v);
    eexists _, _; cbn; (split; [reflexivity|]; split; [tauto | discriminate]).
Qed.

(** X17. A request in the wallet namespace whose handler fails is still
    answered with status 200: the body is the response made of the
    request's id and the router's failure result. *)
Theorem mcp_query_reports_handler_failure_as_200 (data : pyval) (w w' : world)
    (request : MCPRequest) (e : exn) (response : pyval) :
  py_truthy data = true ->
  rbind (py_kwargs MCPRequest_name data) MCPRequest_new = Ok request ->
  String.prefix "wallet." (action request) = true ->
  dispatch (action request) (params_or_empty request) w = (Raise e, w') ->
  MCPResponse_dict (id request)
    (PDict [("error", PStr (exn_str e)); ("action", PStr (action request));
            ("success", PBool false)]) = Ok response ->
  mcp_query (Ok data) w = (Ok {| body := response; status_code := 200 |}, w').
Proof.
  intros Htruthy Hparse Hprefix Hrun Hresp.
  unfold mcp_query, try_except, bind, lift, ret.
  rewrite Htruthy. cbn [negb]. rewrite Hparse, Hprefix.
  unfold handle_wallet_action, try_except, ret, failure_result.
  rewrite Hrun, Hresp. reflexivity.
Qed.

(** X18. The three ways the query view turns a request away with status
    400: an empty body, a body that is no valid request, and a valid
    request whose action is outside the wallet namespace; each with its own
    message and with the world unchanged. *)
Theorem mcp_query_rejections (data : pyval) (w : world) :
  (py_truthy data = false ->
   mcp_query (Ok data) w =
   (Ok {| body := PDict [("error", PStr "Invalid request: No JSON data provided")];
          status_code := 400 |}, w)) /\
  (forall e : exn,
     py_truthy data = true ->
     rbind (py_kwargs MCPRequest_name data) MCPRequest_new = Raise e ->
     mcp_query (Ok data) w =
     (Ok {| body := PDict [("error", PStr ("Invalid MCP request format: "
                                           ++ exn_str e))];
            status_code := 400 |}, w)) /\
  (forall request : MCPRequest,
     py_truthy data = true ->
     rbind (py_kwargs MCPRequest_name data) MCPRequest_new = Ok request ->
     String.prefix "wallet." (action request) = false ->
     mcp_query (Ok data) w =
     (Ok {| body := PDict [("error", PStr ("Unknown action: " ++ action request))];
            status_code := 400 |}, w)).
Proof.
  unfold mcp_query, try_except, bind, lift, ret, error_body.
  split; [|split].
  - intros ->. reflexivity.
  - intros e -> ->. reflexivity.
  - intros request -> -> ->. reflexivity.
Qed.

(** X19. The ping view always answers with status 200 and changes nothing.
    With a wallet in the registry it reports "ready", the wallet's network
    and its masked address; with an empty registry it reports
    "initializing", the network "unknown" and no address. *)
Theorem ping_reports_the_registry (w : world) :
  (forall (self : nat) (o : SolanaWallet),
     _wallet_instance w = Some self -> heap w !! self = Some o ->
     ping w =
     (Ok {| body := PDict [("service", PStr "solana-vault-mcp");
                           ("status", PStr "ready");
                           ("network", PStr (network o));
                           ("wallet", PStr (masked (public_key o)));
                           ("version", config_VERSION)];
            status_code := 200 |}, w)) /\
  (_wallet_instance w = None ->
   ping w =
   (Ok {| body := PDict [("service", PStr "solana-vault-mcp");
                         ("status", PStr "initializing");
                         ("network", PStr "unknown");
                         ("wallet", PStr "not_initialized");
                         ("version", config_VERSION)];
          status_code := 200 |}, w)).
Proof.
  unfold ping, try_except, bind, the_object, load, ret. split.
  - intros self o Hslot Hself. rewrite (get_wallet_set w self Hslot), Hself.
    reflexivity.
  - intros Hnone. rewrite (get_wallet_unset w Hnone). reflexivity.
Qed.

(** X20. The mask keeps the first six and the last four characters of an
    address and puts three dots for everything between them.  An address
    of at most four characters is not hidden at all: it appears whole on
    both sides of the dots. *)
Theorem masked_keeps_six_and_four (first middle last : string) :
  String.length first = 6%nat ->
  String.length last = 4%nat ->
  first ++ middle ++ last <> "not_initialized" ->
  masked (first ++ middle ++ last) = first ++ "..." ++ last /\
  (forall short : string,
     (String.length short <= 4)%nat ->
     masked short = short ++ "..." ++ short).
Proof.
  intros Hfirst Hlast Hne. split.
  - unfold masked. apply String.eqb_neq in Hne. rewrite Hne. cbn [negb].
    unfold str_first, str_last. f_equal; [|f_equal].
    + rewrite <- Hfirst. apply substring_app_first.
    + rewrite !string_length_app, Hlast.
      replace (String.length first + (String.length middle + 4) - 4)%nat
        with (String.length first + String.length middle)%nat by lia.
      rewrite <- string_length_app, <- string_app_assoc.
      rewrite substring_app_skip, <- Hlast. apply substring_all.
  - intros short Hshort. unfold masked.
    assert (Hs : String.eqb short "not_initialized" = false).
    { apply String.eqb_neq. intros ->. cbn in Hshort. lia. }
    rewrite Hs. cbn [negb]. unfold str_first, str_last.
    replace (String.length short - 4)%nat with 0%nat by lia.
    rewrite !substring_beyond by lia. reflexivity.
Qed.

(** X21. The health view answers 200 with the wallet's address and network
    when the registry holds a wallet, and 503 with the not-initialized
    message when it is empty; it changes nothing. *)
Theorem health_reports_the_registry (w : world) :
  (forall (self : nat) (o : SolanaWallet),
     _wallet_instance w = Some self -> heap w !! self = Some o ->
     health w =
     (Ok {| body := PDict [("status", PStr "healthy");
                           ("wallet_initialized", PBool true);
                           ("wallet_address", PStr (public_key o));
                           ("network", PStr (network o))];
            status_code := 200 |}, w)) /\
  (_wallet_instance w = None ->
   health w =
   (Ok {| body := PDict [("status", PStr "initializing");
                         ("wallet_initialized", PBool false);
                         ("error",
                           PStr "Wallet not initialized. Call initialize_wallet first.")];
          status_code := 503 |}, w)).
Proof.
  unfold health, try_except, bind, the_object, load, ret. split.
  - intros self o Hslot Hself. rewrite (get_wallet_set w self Hslot), Hself.
    reflexivity.
  - intros Hnone. rewrite (get_wallet_unset w Hnone). reflexivity.
Qed.

(** X22. Starting the application never fails on the wallet.  Without a
    configured key (unset or empty) nothing happens.  With a key, on an
    empty registry, the wallet is constructed once: it is registered when
    the construction succeeds, and when it fails the error is swallowed and
    the registry stays empty, so the application runs without a wallet. *)
Theorem create_app_wallet_never_fails (SOLANA_PRIVATE_KEY : option string)
    (RPC_URL : string) (w : world) :
  exists w' : world,
    create_app_wallet SOLANA_PRIVATE_KEY RPC_URL w = (Ok tt, w') /\
    (SOLANA_PRIVATE_KEY = None \/ SOLANA_PRIVATE_KEY = Some "" -> w' = w) /\
    (forall key : string,
       SOLANA_PRIVATE_KEY = Some key -> key <> "" -> _wallet_instance w = None ->
       match SolanaWallet_init key RPC_URL w with
       | (Ok o, w1) => w' = registered o w1
       | (Raise _, w1) => w' = w1 /\ _wallet_instance w' = None
       end).
Proof.
  unfold create_app_wallet.
  destruct SOLANA_PRIVATE_KEY as [key|].
  - destruct (String.eqb key "") eqn:Hkey; cbn [negb].
    + apply String.eqb_eq in Hkey as ->. exists w.
      split; [reflexivity|]. split; [reflexivity|]. intros key [= <-] Hne.
      contradiction.
    + apply String.eqb_neq in Hkey. unfold try_except, bind, ret.
      destruct (_wallet_instance w) as [l|] eqn:Hslot.
      * rewrite (initialize_wallet_set key RPC_URL w l Hslot). exists w.
        split; [reflexivity|]. split; [intros [[=]|[= ->]]; contradiction|].
        intros key' _ _ [=].
      * rewrite (initialize_wallet_unset key RPC_URL w Hslot).
        destruct (SolanaWallet_init key RPC_URL w) as [[o|e] w1] eqn:Hinit;
          eexists; (split; [reflexivity|]);
          (split; [intros [[=]|[= ->]]; contradiction|]);
          intros key' [= <-] _ _; rewrite Hinit; [reflexivity|].
        split; [reflexivity|].
        destruct (SolanaWallet_init_frame _ _ _ _ _ Hinit) as (_ & Hs & _).
        congruence.
  - exists w. split; [reflexivity|]. split; [reflexivity|]. intros key [=].
Qed.

(** X27. The home page always answers with status 200 and never raises;
    it writes nothing and submits nothing (its one possible call is the
    balance lookup), and with an empty registry it reports "initializing"
    with the not-initialized message and makes no call at all. *)
Theorem index_always_answers (w : world) :
  (exists (resp : http_response) (w' : world),
     index w = (Ok resp, w') /\ status_code resp = 200 /\
     heap w' = heap w /\ _wallet_instance w' = _wallet_instance w /\
     submissions w' = submissions w) /\
  (_wallet_instance w = None ->
   index w =
   (Ok {| body := PDict [("service", PStr "Solana Vault MCP");
                         ("status", PStr "initializing");
                         ("error",
                           PStr "Wallet not initialized. Call initialize_wallet first.")];
          status_code := 200 |}, w)).
Proof.
  split.
  - unfold index, get_balance, get_wallet, the_object, read_instance, try_except,
      bind, lift, load, call_rpc, raise, ret, submissions.
    cbn zeta.
    repeat (run_step; cbn [negb heap rpc_log clock _wallet_instance snd fst]);
      eexists _, _; (split; [reflexivity|]);
      cbn [status_code heap rpc_log _wallet_instance];
      rewrite ?List.filter_app; cbn [List.filter is_submission snd];
      rewrite ?app_nil_r; repeat split; congruence.
  - intros Hnone. unfold index, try_except, bind.
    rewrite (get_wallet_unset w Hnone). reflexivity.
Qed.

End ViewBehaviour.

(** ** The tests of tests/test_wallet.py and the end-to-end examples *)

Import Fixture.

Example test_wallet_initialization :
  fst (SolanaWallet_init TEST_PRIVATE_KEY TEST_RPC_URL empty_world) = Ok fixture_wallet /\
  public_key fixture_wallet = TEST_PUBLIC_KEY /\
  network fixture_wallet = "devnet" /\
  rpc_log (snd (SolanaWallet_init TEST_PRIVATE_KEY TEST_RPC_URL empty_world))
  = [(TEST_RPC_URL, RpcGetVersion)].
Proof. repeat split; vm_compute; reflexivity. Qed.

Example test_get_balance :
  fst (get_balance 0 fixture_world) = Ok 1.5%float.
Proof. vm_compute. reflexivity. Qed.

Example test_get_recent_transactions :
  fst (get_recent_transactions 0 1 fixture_world) =
  Ok [PDict [("signature", PStr "test_signature"); ("slot", PInt 123456789);
             ("err", PNone); ("memo", PNone); ("block_time", PInt 1632152400)]].
Proof. vm_compute. reflexivity. Qed.

Example test_transfer_sol :
  let run := Wallet.transfer_sol 0 (PStr TEST_RECIPIENT) 0.1 fixture_world in
  fst run = Ok (PStr "transaction_signature") /\
  exists o entry,
    heap (snd run) !! 0%nat = Some o /\
    pydict_get (PStr "transaction_signature") (tx_history o) = Some entry /\
    tx_amount entry = 0.1%float /\ tx_recipient entry = PStr TEST_RECIPIENT.
Proof.
  split; [vm_compute; reflexivity|].
  eexists _, _. repeat split; vm_compute; reflexivity.
Qed.

Example test_initialize_and_get_wallet :
  initialize_wallet TEST_PRIVATE_KEY TEST_RPC_URL empty_world
  = (Ok (Some 0%nat), fixture_world) /\
  get_wallet fixture_world = (Ok (Some 0%nat), fixture_world).
Proof. split; vm_compute; reflexivity. Qed.

Example end_to_end_balance :
  fst (handle_wallet_action
         {| id := "t1"; action := "wallet.balance"; params := None |} fixture_world)
  = Ok (PDict [("balance", PFloat 1.5); ("currency", PStr "SOL");
               ("address", PStr TEST_PUBLIC_KEY)]).
Proof. vm_compute. reflexivity. Qed.

Example end_to_end_unknown_action :
  fst (handle_wallet_action
         {| id := "t2"; action := "wallet.unknown_thing"; params := None |}
         fixture_world)
  = Ok (PDict [("error", PStr "Unknown wallet action: wallet.unknown_thing");
               ("action", PStr "wallet.unknown_thing"); ("success", PBool false)]).
Proof. vm_compute. reflexivity. Qed.

(** A JSON null as the amount or the limit, through the router. *)
Example end_to_end_null_amount :
  handle_wallet_action
    {| id := "t3"; action := "wallet.transfer";
       params := Some [("recipient", PStr TEST_RECIPIENT); ("amount", PNone)] |}
    fixture_world
  = (Ok (PDict [("error",
                 PStr "float() argument must be a string or a real number, not 'NoneType'");
                ("action", PStr "wallet.transfer"); ("success", PBool false)]),
     fixture_world).
Proof. vm_compute. reflexivity. Qed.

Example end_to_end_null_limit :
  handle_wallet_action
    {| id := "t4"; action := "wallet.transactions";
       params := Some [("limit", PNone)] |}
    fixture_world
  = (Ok (PDict [("error",
                 PStr "int() argument must be a string, a bytes-like object or a real number, not 'NoneType'");
                ("action", PStr "wallet.transactions"); ("success", PBool false)]),
     fixture_world).
Proof. vm_compute. reflexivity. Qed.

(** Amounts the instruction builder refuses, directly and through the
    router: a negative amount within the balance, and an amount beyond 64
    bits within a reported balance that is larger still.  Nothing is
    submitted. *)
Example transfer_sol_negative_amount :
  Wallet.transfer_sol 0 (PStr TEST_RECIPIENT) (-1) fixture_world
  = (Raise (Exn ValueError
              "Failed to transfer SOL: amount out of range for an unsigned 64-bit field"),
     logged (balance_call fixture_wallet) fixture_world).
Proof. vm_compute. reflexivity. Qed.

Example end_to_end_amount_beyond_u64 :
  let run := @handle_wallet_action plain_runtime
               (lib_with_client (balance_client 30000000000000000000))
               {| id := "t7"; action := "wallet.transfer";
                  params := Some [("recipient", PStr TEST_RECIPIENT);
                                  ("amount", PFloat 20000000000)] |}
               fixture_world in
  py_int_of_float (20000000000 * 1000000000)%float = Ok 20000000000000000000 /\
  fst run
  = Ok (PDict [("error",
                 PStr "Failed to transfer SOL: amount out of range for an unsigned 64-bit field");
               ("action", PStr "wallet.transfer"); ("success", PBool false)]) /\
  submissions (snd run) = [].
Proof. cbv zeta. repeat split; vm_compute; reflexivity. Qed.

(** ** The theorems at the fixture *)

Lemma reports_balance_fixture : reports_balance fixture_balance_reply 1500000000.
Proof. eexists _, _. repeat split; reflexivity. Qed.

Lemma reports_signature_fixture :
  reports_signature fixture_send_reply "transaction_signature".
Proof. eexists. repeat split; reflexivity. Qed.

Lemma transfer_sol_succeeds_and_caches_witness :
  exists (w' : world) (o' : SolanaWallet) (entry : tx_entry),
    Wallet.transfer_sol 0 (PStr TEST_RECIPIENT) 0.1 fixture_world
    = (Ok (PStr "transaction_signature"), w') /\
    heap w' !! 0%nat = Some o' /\
    pydict_get (PStr "transaction_signature") (tx_history o') = Some entry /\
    tx_amount entry = 0.1%float /\
    tx_recipient entry = PStr TEST_RECIPIENT.
Proof.
  destruct (transfer_sol_succeeds_and_caches fixture_world 0 fixture_wallet
              (PStr TEST_RECIPIENT) {| pk_base58 := TEST_RECIPIENT |} 0.1
              100000000 1500000000 fixture_balance_reply fixture_send_reply
              "transaction_signature")
    as (w' & o' & entry & Hrun & Hobj & Hget & Hamount & Hrecipient & _).
  - reflexivity.
  - vm_compute. reflexivity.
  - vm_compute. reflexivity.
  - vm_compute. reflexivity.
  - reflexivity.
  - exact reports_balance_fixture.
  - lia.
  - unfold u64_max. lia.
  - reflexivity.
  - exact reports_signature_fixture.
  - exists w', o', entry. auto.
Defined.

(** The state after the transfer of [test_transfer_sol]: the cache holds
    one entry, under "transaction_signature". *)
Definition world_after_transfer : world :=
  snd (Wallet.transfer_sol 0 (PStr TEST_RECIPIENT) 0.1 fixture_world).

(** C1, the case the unconditional reading misses.  The endpoint of the
    tests reports the same signature for every submission.  A second
    transfer, of a positive amount within the balance, to a valid
    recipient, succeeds and returns that signature again: the cache had one
    entry and still has one, so it has gained none, and the entry it held
    under that signature, of amount 0.1, now reads 0.2. *)
Lemma transfer_sol_repeated_signature_counterexample :
  let run := Wallet.transfer_sol 0 (PStr TEST_RECIPIENT) 0.2 world_after_transfer in
  PublicKey_new (PStr TEST_RECIPIENT) = Ok {| pk_base58 := TEST_RECIPIENT |} /\
  (0 <? 0.2)%float = true /\
  py_int_of_float (0.2 * 1000000000)%float = Ok 200000000 /\
  200000000 <= 1500000000 /\
  fst run = Ok (PStr "transaction_signature") /\
  exists (o o' : SolanaWallet) (before after : tx_entry),
    heap world_after_transfer !! 0%nat = Some o /\
    heap (snd run) !! 0%nat = Some o' /\
    length (tx_history o) = 1%nat /\
    length (tx_history o') = 1%nat /\
    length (tx_history o') <> S (length (tx_history o)) /\
    pydict_get (PStr "transaction_signature") (tx_history o) = Some before /\
    pydict_get (PStr "transaction_signature") (tx_history o') = Some after /\
    tx_amount before = 0.1%float /\
    tx_amount after = 0.2%float.
Proof.
  cbv zeta.
  split; [vm_compute; reflexivity|].
  split; [vm_compute; reflexivity|].
  split; [vm_compute; reflexivity|].
  split; [lia|].
  split; [vm_compute; reflexivity|].
  eexists _, _, _, _.
  split; [vm_compute; reflexivity|].
  split; [vm_compute; reflexivity|].
  split; [reflexivity|].
  split; [reflexivity|].
  split; [discriminate|].
  split; [vm_compute; reflexivity|].
  split; [vm_compute; reflexivity|].
  split; reflexivity.
Qed.

Lemma transfer_sol_insufficient_balance_witness :
  exists (e : exn) (w' : world),
    Wallet.transfer_sol 0 (PStr TEST_RECIPIENT) 2 fixture_world = (Raise e, w') /\
    submissions w' = submissions fixture_world /\
    heap w' = heap fixture_world.
Proof.
  destruct (transfer_sol_insufficient_balance fixture_world 0 fixture_wallet
              (PStr TEST_RECIPIENT) {| pk_base58 := TEST_RECIPIENT |} 2
              2000000000 1500000000 fixture_balance_reply)
    as (available & e & w' & _ & Hrun & _ & _ & Hsub & Hheap & _).
  - reflexivity.
  - vm_compute. reflexivity.
  - vm_compute. reflexivity.
  - reflexivity.
  - exact reports_balance_fixture.
  - lia.
  - lia.
  - exists e, w'. auto.
Defined.

Lemma base_unit_conversion_exact_witness :
  get_balance 0 fixture_world
  = (Ok 1.5%float, logged (balance_call fixture_wallet) fixture_world) /\
  py_int_of_float (0.1 * 1000000000)%float = Ok 100000000 /\
  rpc_log (snd (Wallet.transfer_sol 0 (PStr TEST_RECIPIENT) 0.1 fixture_world))
  = (rpc_log fixture_world
     ++ [balance_call fixture_wallet;
         transfer_call fixture_wallet {| pk_base58 := TEST_RECIPIENT |} 100000000])%list.
Proof.
  destruct (base_unit_conversion_exact fixture_world 0 fixture_wallet
              (PStr TEST_RECIPIENT) {| pk_base58 := TEST_RECIPIENT |}
              fixture_balance_reply 1500000000)
    as (Hbalance & _ & _ & _ & Hlamports & Hdecide).
  - reflexivity.
  - vm_compute. reflexivity.
  - reflexivity.
  - exact reports_balance_fixture.
  - split; [rewrite Hbalance; vm_compute; reflexivity|].
    split; [exact Hlamports|].
    apply (Hdecide 0.1%float 100000000 Hlamports); [lia | unfold u64_max; lia].
Defined.

(** C4, where drift does reach the comparison.  The amount 2.01, the
    float nearest to 201/100, stands for 2,010,000,000 base units, but its
    floating-point product with the factor truncates to 2,009,999,999.  A
    wallet whose endpoint reports a balance of 2,009,999,999 base units,
    which [get_balance] shows as a number below 2.01, therefore passes the
    sufficiency check for a transfer of 2.01: the transfer is submitted,
    for 2,009,999,999 base units, and succeeds. *)
Lemma base_unit_conversion_drift_counterexample :
  let lib := lib_with_client (balance_client 2009999999) in
  let run := @Wallet.transfer_sol plain_runtime lib 0 (PStr TEST_RECIPIENT) 2.01
               fixture_world in
  py_int_truediv 201 100 = Ok 2.01%float /\
  201 * 1000000000 = 2010000000 * 100 /\
  py_int_of_float (2.01 * 1000000000)%float = Ok 2009999999 /\
  2009999999 < 2010000000 /\
  (exists shown : float,
     fst (@get_balance plain_runtime lib 0 fixture_world) = Ok shown /\
     (shown <? 2.01)%float = true) /\
  fst run = Ok (PStr "transaction_signature") /\
  submissions (snd run)
  = [transfer_call fixture_wallet {| pk_base58 := TEST_RECIPIENT |} 2009999999].
Proof.
  cbv zeta.
  split; [vm_compute; reflexivity|].
  split; [reflexivity|].
  split; [vm_compute; reflexivity|].
  split; [lia|].
  split; [eexists; split; vm_compute; reflexivity|].
  split; vm_compute; reflexivity.
Qed.

Lemma initialize_wallet_idempotent_witness :
  initialize_wallet TEST_PRIVATE_KEY TEST_RPC_URL empty_world
  = (Ok (Some 0%nat), fixture_world) /\
  initialize_wallet "another key" "https://api.mainnet-beta.solana.com" fixture_world
  = (Ok (Some 0%nat), fixture_world).
Proof.
  destruct (initialize_wallet_idempotent TEST_PRIVATE_KEY TEST_RPC_URL empty_world
              (logged (TEST_RPC_URL, RpcGetVersion) empty_world) fixture_wallet)
    as (Hfirst & _ & _ & Hlater).
  - reflexivity.
  - vm_compute. reflexivity.
  - split; [exact Hfirst | apply Hlater; reflexivity].
Defined.

Lemma failed_initialization_leaves_registry_unset_witness :
  exists e : exn,
    initialize_wallet "not a key!" TEST_RPC_URL empty_world = (Raise e, empty_world) /\
    get_wallet empty_world = (Raise not_initialized, empty_world).
Proof.
  destruct (failed_initialization_leaves_registry_unset "not a key!" TEST_RPC_URL
              empty_world empty_world
              (Exn ValueError "Failed to initialize Solana wallet: Invalid character"))
    as (Hraise & _ & _ & Hget & _).
  - reflexivity.
  - vm_compute. reflexivity.
  - eexists. split; [exact Hraise | exact Hget].
Defined.

(** ** The further theorems at the fixture *)

Lemma transfer_sol_failure_writes_nothing_witness :
  Wallet.transfer_sol 0 (PStr TEST_RECIPIENT) 2 fixture_world
  = (Raise (Exn ValueError
              "Failed to transfer SOL: Insufficient balance. Available: <float> SOL, Requested: <float> SOL"),
     logged (balance_call fixture_wallet) fixture_world) /\
  heap (logged (balance_call fixture_wallet) fixture_world) = heap fixture_world.
Proof.
  assert (Hrun : Wallet.transfer_sol 0 (PStr TEST_RECIPIENT) 2 fixture_world
                 = (Raise (Exn ValueError
                             "Failed to transfer SOL: Insufficient balance. Available: <float> SOL, Requested: <float> SOL"),
                    logged (balance_call fixture_wallet) fixture_world))
    by (vm_compute; reflexivity).
  split; [exact Hrun|].
  exact (proj1 (transfer_sol_failure_writes_nothing _ _ _ _ _ _ Hrun)).
Defined.

Lemma transfer_sol_validates_before_contact_witness :
  heap fixture_world !! 0%nat = Some fixture_wallet /\
  Wallet.transfer_sol 0 (PStr "nobody") 0.1 fixture_world
  = (Raise (Exn ValueError "Failed to transfer SOL: invalid public key input"),
     fixture_world).
Proof.
  split; [reflexivity|].
  exact (proj1 (transfer_sol_validates_before_contact fixture_world 0 fixture_wallet
                  (PStr "nobody") 0.1 eq_refl)
           (Exn ValueError "invalid public key input") eq_refl).
Defined.

Lemma transfer_sol_rejected_by_endpoint_witness :
  exists w' : world,
    @Wallet.transfer_sol plain_runtime (lib_with_client rejecting_client)
      0 (PStr TEST_RECIPIENT) 0.1 fixture_world
    = (Raise (Exn ValueError "Failed to transfer SOL: Transfer failed: <dict>"), w') /\
    heap w' = heap fixture_world.
Proof.
  destruct (@transfer_sol_rejected_by_endpoint plain_runtime
              (lib_with_client rejecting_client) fixture_world 0 fixture_wallet
              (PStr TEST_RECIPIENT) {| pk_base58 := TEST_RECIPIENT |} 0.1
              100000000 1500000000 fixture_balance_reply
              (PDict [("error", PDict [("code", PInt (-32002));
                                       ("message", PStr "Transaction simulation failed")])])
              (PDict [("code", PInt (-32002));
                      ("message", PStr "Transaction simulation failed")]))
    as (w' & Hrun & Hheap & _).
  - reflexivity.
  - vm_compute. reflexivity.
  - vm_compute. reflexivity.
  - reflexivity.
  - exact reports_balance_fixture.
  - lia.
  - unfold u64_max. lia.
  - reflexivity.
  - reflexivity.
  - reflexivity.
  - exists w'. split; [exact Hrun | exact Hheap].
Defined.

Lemma get_recent_transactions_normalizes_witness :
  exists out : list pyval,
    get_recent_transactions 0 1 fixture_world
    = (Ok out, logged (signatures_call fixture_wallet 1) fixture_world).
Proof.
  destruct (get_recent_transactions_normalizes fixture_world 0 fixture_wallet 1
              [("result", PList [fixture_summary])] [fixture_summary])
    as [_ Hall]; [reflexivity | reflexivity | reflexivity | reflexivity |].
  apply Hall. constructor; [|constructor].
  eexists. split; [reflexivity|]. repeat split; discriminate.
Defined.

Lemma get_transaction_returns_result_witness :
  get_transaction 0 (PStr "test_signature") fixture_world
  = (Ok PNone, logged (transaction_call fixture_wallet (PStr "test_signature"))
                 fixture_world).
Proof.
  apply (get_transaction_returns_result fixture_world 0 fixture_wallet
           (PStr "test_signature") [("result", PNone)]); reflexivity.
Defined.

Lemma SolanaWallet_init_builds_witness :
  SolanaWallet_init TEST_PRIVATE_KEY TEST_RPC_URL empty_world
  = (Ok fixture_wallet, logged (TEST_RPC_URL, RpcGetVersion) empty_world).
Proof.
  apply (SolanaWallet_init_builds TEST_PRIVATE_KEY TEST_RPC_URL empty_world
           {| kp_secret_key := TEST_PRIVATE_KEY;
              kp_public_key := {| pk_base58 := TEST_PUBLIC_KEY |} |}
           [("result", PDict [("solana-core", PStr "1.14.10")])]
           (PDict [("solana-core", PStr "1.14.10")]) (PStr "1.14.10"));
    reflexivity.
Defined.

Lemma SolanaWallet_init_needs_solana_core_witness :
  @SolanaWallet_init plain_runtime (lib_with_client versionless_client)
    TEST_PRIVATE_KEY TEST_RPC_URL empty_world
  = (Raise (Exn ValueError "Failed to initialize Solana wallet: 'solana-core'"),
     logged (TEST_RPC_URL, RpcGetVersion) empty_world).
Proof.
  apply (@SolanaWallet_init_needs_solana_core plain_runtime
           (lib_with_client versionless_client)
           TEST_PRIVATE_KEY TEST_RPC_URL empty_world
           {| kp_secret_key := TEST_PRIVATE_KEY;
              kp_public_key := {| pk_base58 := TEST_PUBLIC_KEY |} |}
           [("result", PDict [])] (PDict []) (Exn KeyError "'solana-core'"));
    reflexivity.
Defined.

Definition balance_request : MCPRequest :=
  {| id := "t1"; action := "wallet.balance"; params := None |}.

Definition transfer_request (params : list (string * pyval)) : MCPRequest :=
  {| id := "t5"; action := "wallet.transfer"; params := Some params |}.

Lemma only_transfer_writes_witness :
  action balance_request <> "wallet.transfer" /\
  heap (snd (handle_wallet_action balance_request fixture_world)) = heap fixture_world.
Proof.
  assert (Hne : action balance_request <> "wallet.transfer") by discriminate.
  split; [exact Hne|].
  exact (proj1 (only_transfer_writes balance_request fixture_world Hne)).
Defined.

Lemma empty_registry_rejects_every_request_witness :
  handle_wallet_action (transfer_request [("recipient", PStr TEST_RECIPIENT);
                                          ("amount", PFloat 0.1)]) empty_world
  = (Ok (PDict [("error", PStr "Wallet not initialized. Call initialize_wallet first.");
                ("action", PStr "wallet.transfer"); ("success", PBool false)]),
     empty_world).
Proof.
  apply (empty_registry_rejects_every_request
           (transfer_request [("recipient", PStr TEST_RECIPIENT);
                              ("amount", PFloat 0.1)]) empty_world).
  reflexivity.
Defined.

Lemma missing_parameter_is_named_witness :
  handle_wallet_action (transfer_request [("amount", PFloat 0.1)]) fixture_world
  = (Ok (PDict [("error", PStr "Missing required parameter: recipient");
                ("action", PStr "wallet.transfer"); ("success", PBool false)]),
     fixture_world).
Proof.
  apply (proj1 (missing_parameter_is_named
                  (transfer_request [("amount", PFloat 0.1)]) fixture_world 0 eq_refl));
    reflexivity.
Defined.

Lemma token_balance_is_a_placeholder_witness :
  handle_wallet_action
    {| id := "t6"; action := "wallet.token_balance";
       params := Some [("token_mint", PStr "So11111111111111111111111111111111111111112")] |}
    fixture_world
  = (Ok (PDict [("token_mint", PStr "So11111111111111111111111111111111111111112");
                ("balance", PInt 0); ("raw_balance", PStr "0"); ("decimals", PInt 0);
                ("address", PStr TEST_PUBLIC_KEY)]), fixture_world).
Proof.
  apply (token_balance_is_a_placeholder
           {| id := "t6"; action := "wallet.token_balance";
              params := Some [("token_mint",
                               PStr "So11111111111111111111111111111111111111112")] |}
           fixture_world 0 fixture_wallet);
    reflexivity.
Defined.

Lemma transfer_request_succeeds_witness :
  fst (handle_wallet_action
         (transfer_request [("recipient", PStr TEST_RECIPIENT); ("amount", PFloat 0.1)])
         fixture_world)
  = Ok (PDict [("success", PBool true); ("signature", PStr "transaction_signature");
               ("amount", PFloat 0.1); ("recipient", PStr TEST_RECIPIENT);
               ("explorer_url",
                 PStr "https://explorer.solana.com/tx/transaction_signature?cluster=devnet")]).
Proof.
  apply (transfer_request_succeeds
           (transfer_request [("recipient", PStr TEST_RECIPIENT); ("amount", PFloat 0.1)])
           fixture_world 0 fixture_wallet (PStr TEST_RECIPIENT) (PFloat 0.1)
           {| pk_base58 := TEST_RECIPIENT |} 0.1 100000000 1500000000
           fixture_balance_reply fixture_send_reply "transaction_signature").
  - reflexivity.
  - reflexivity.
  - reflexivity.
  - reflexivity.
  - vm_compute. reflexivity.
  - reflexivity.
  - reflexivity.
  - vm_compute. reflexivity.
  - vm_compute. reflexivity.
  - reflexivity.
  - exact reports_balance_fixture.
  - lia.
  - unfold u64_max. lia.
  - reflexivity.
  - exact reports_signature_fixture.
Defined.

Definition unknown_thing_body : pyval :=
  PDict [("id", PStr "t2"); ("action", PStr "wallet.unknown_thing")].

Lemma mcp_query_reports_handler_failure_as_200_witness :
  Routes.mcp_query (Ok unknown_thing_body) fixture_world
  = (Ok {| Routes.body :=
             PDict [("id", PStr "t2");
                    ("result",
                      PDict [("error", PStr "Unknown wallet action: wallet.unknown_thing");
                             ("action", PStr "wallet.unknown_thing");
                             ("success", PBool false)])];
           Routes.status_code := 200 |}, fixture_world).
Proof.
  apply (mcp_query_reports_handler_failure_as_200 unknown_thing_body fixture_world
           fixture_world
           {| id := "t2"; action := "wallet.unknown_thing"; params := None |}
           (Exn ValueError "Unknown wallet action: wallet.unknown_thing")).
  - reflexivity.
  - reflexivity.
  - reflexivity.
  - vm_compute. reflexivity.
  - reflexivity.
Defined.

Lemma masked_keeps_six_and_four_witness :
  Routes.masked TEST_PUBLIC_KEY = "DRKgF2...YEsc".
Proof.
  apply (proj1 (masked_keeps_six_and_four "DRKgF2"
                  "S4XWScdP8rr1vFLKMJJbTKBcX8FXMvrK9u" "YEsc" eq_refl eq_refl
                  ltac:(discriminate))).
Defined.

Lemma initialized_stays_initialized_witness :
  _wallet_instance
    (snd (handle_wallet_action
            (transfer_request [("recipient", PStr TEST_RECIPIENT);
                               ("amount", PFloat 0.1)]) fixture_world))
  = Some 0%nat.
Proof.
  apply (initialized_stays_initialized
           (transfer_request [("recipient", PStr TEST_RECIPIENT); ("amount", PFloat 0.1)])
           fixture_world 0).
  - reflexivity.
  - exists fixture_wallet. reflexivity.
Defined.

Lemma transfer_handler_rejects_amount_witness :
  Handlers.transfer_sol [("recipient", PStr TEST_RECIPIENT); ("amount", PStr "abc")]
    fixture_world
  = (Raise (Exn ValueError "Invalid amount value: abc. Must be a valid number."),
     fixture_world) /\
  Handlers.transfer_sol [("recipient", PStr TEST_RECIPIENT); ("amount", PInt (-3))]
    fixture_world
  = (Raise (Exn ValueError "Amount must be greater than 0"), fixture_world).
Proof.
  split.
  - apply (proj1 (transfer_handler_rejects_amount
                    [("recipient", PStr TEST_RECIPIENT); ("amount", PStr "abc")]
                    (PStr TEST_RECIPIENT) (PStr "abc") fixture_world eq_refl eq_refl)
             (Exn ValueError "could not convert string to float: <str>"));
      reflexivity.
  - apply (proj2 (transfer_handler_rejects_amount
                    [("recipient", PStr TEST_RECIPIENT); ("amount", PInt (-3))]
                    (PStr TEST_RECIPIENT) (PInt (-3)) fixture_world eq_refl eq_refl)
             (-3)%float); vm_compute; reflexivity.
Defined.

Lemma get_transactions_passes_limit_witness :
  rpc_log (snd (get_transactions [("limit", PInt 5)] fixture_world))
  = (rpc_log fixture_world ++ [signatures_call fixture_wallet 5])%list.
Proof.
  apply (get_transactions_passes_limit [("limit", PInt 5)] 5 fixture_world 0
           fixture_wallet); reflexivity.
Defined.
